(** * RTCom: the PCF8523 real-time-clock driver (RTCom/PCF8523.py)

    A shallow embedding of the driver class [RTC] and of the part of the
    MicroPython I2C bus it talks to, followed by the properties of the
    register codec and of the control-bit operations.

    The driver is Python: arguments are dynamically typed, failures are
    exceptions, and every register access is a call on a shared bus object.
    The embedding keeps the three: a small type of Python values, a state
    and exception monad over the bus, and a trace of the bus calls made. *)

From Stdlib Require Import ZArith Lia Strings.Byte.
From stdpp Require Import base option list strings gmap pretty.

Local Open Scope Z_scope.

(** ** Python values and exceptions *)

Module Py.

(** The values a caller can pass to the driver's methods: [None],
    booleans, integers and strings.  Floats are not modelled (a float
    equal to an integer of the range passes the [range] tests of the
    setters as that integer does); what is stated of every value below is
    stated of these four kinds. *)
Inductive val : Type :=
| None_
| Bool (b : bool)
| Int (z : Z)
| Str (s : string).

Inductive exn : Type :=
| ValueError (msg : string)
| RuntimeError (msg : string)
| IndexError (msg : string)
| TypeError (msg : string)
| StructError (msg : string).

(** [x is True], [x is False]: identity with the two boolean singletons. *)
Definition is_True (v : val) : bool :=
  match v with Bool true => true | _ => false end.
Definition is_False (v : val) : bool :=
  match v with Bool false => true | _ => false end.

(** [isinstance(x, str)]. *)
Definition is_str (v : val) : bool :=
  match v with Str _ => true | _ => false end.

(** The integer a value compares equal to, if any: [bool] is a subclass
    of [int] ([True == 1]); strings and [None] equal no integer. *)
Definition as_int (v : val) : option Z :=
  match v with
  | Int z => Some z
  | Bool b => Some (if b then 1 else 0)
  | _ => None
  end.

(** [v in range(lo, hi)]. *)
Definition in_range (v : val) (lo hi : Z) : bool :=
  match as_int v with
  | Some z => (lo <=? z) && (z <? hi)
  | None => false
  end.

(** [divmod(a, 10)] and the like: floor division, as [Z.div]/[Z.modulo]
    for a positive divisor. *)
Definition divmod (a b : Z) : Z * Z := (a / b, a mod b).

(** ["{}".format(v)]. *)
Definition format (v : val) : string :=
  match v with
  | None_ => "None"
  | Bool true => "True"
  | Bool false => "False"
  | Int z => pretty z
  | Str s => s
  end.

(** [x in l] and [l.index(x)] on a list of strings. *)
Fixpoint index (x : string) (l : list string) : option Z :=
  match l with
  | [] => None
  | y :: l' => if String.eqb x y then Some 0 else Z.succ <$> index x l'
  end.

(** [l[i]]: a negative index counts from the end; [None] stands for
    the IndexError of an index outside [-len(l), len(l)). *)
Definition getitem {A} (l : list A) (i : Z) : option A :=
  let n := Z.of_nat (length l) in
  if (0 <=? i) && (i <? n) then l !! Z.to_nat i
  else if (- n <=? i) && (i <? 0) then l !! Z.to_nat (i + n)
  else None.

End Py.

(** ** The I2C bus

    [machine.I2C] is an external collaborator.  It is modelled as a store
    of one byte per (device address, memory address), a list of the
    devices that answer a scan, and the trace of the calls made so far.
    A register never written reads as [0x00]. *)

Inductive bus_op : Type :=
| OpScan
| OpRead (addr memaddr : Z)
| OpWrite (addr memaddr : Z) (data : byte).

Record I2C : Type := mkI2C {
  mem : gmap (Z * Z) byte;
  devices : list Z;
  log : list bus_op
}.

Definition record (op : bus_op) (bus : I2C) : I2C :=
  mkI2C (mem bus) (devices bus) (log bus ++ [op]).

(** ** The monad of driver methods: bus state plus exceptions.

    An exception keeps the bus as it was when it was raised: what was
    written before a failure stays written. *)

Inductive result (A : Type) : Type :=
| Ok (a : A)
| Raise (e : Py.exn).
Arguments Ok {A} a.
Arguments Raise {A} e.

Definition M (A : Type) : Type := I2C → result A * I2C.

#[global] Instance M_ret : MRet M := λ A a bus, (Ok a, bus).
#[global] Instance M_bind : MBind M := λ A B f m bus,
  match m bus with
  | (Ok a, bus') => f a bus'
  | (Raise e, bus') => (Raise e, bus')
  end.

Definition raise {A} (e : Py.exn) : M A := λ bus, (Raise e, bus).

Definition scan : M (list Z) :=
  λ bus, (Ok (devices bus), record OpScan bus).

(** [readfrom_mem(addr, memaddr, 1)]: the one byte at that address. *)
Definition readfrom_mem (addr memaddr : Z) : M byte :=
  λ bus, (Ok (default x00 (mem bus !! (addr, memaddr))),
          record (OpRead addr memaddr) bus).

(** [writeto_mem(addr, memaddr, buf)] with a one-byte buffer. *)
Definition writeto_mem (addr memaddr : Z) (data : byte) : M () :=
  λ bus, (Ok (),
          mkI2C (<[(addr, memaddr) := data]> (mem bus)) (devices bus)
                (log bus ++ [OpWrite addr memaddr data])).

(** [struct.unpack('B', b)[0]] and [struct.pack('<B', v)]: the latter
    refuses a number outside 0..255. *)
Definition struct_unpack_B (b : byte) : Z := Z.of_N (Byte.to_N b).

Definition struct_pack_B (v : Z) : option byte :=
  if 0 <=? v then Byte.of_N (Z.to_N v) else None.

(** ** Module constants (PCF8523.py, lines 8-30) *)

Definition _ADDRESS : Z := 104.

Definition _REGISTER_CONTROL_1 : Z := 0x00.
Definition _REGISTER_CONTROL_2 : Z := 0x01.
Definition _REGISTER_CONTROL_3 : Z := 0x02.

Definition _REGISTER_SECOND : Z := 0x03.
Definition _REGISTER_MINUTE : Z := 0x04.
Definition _REGISTER_HOUR : Z := 0x05.
Definition _REGISTER_DAY : Z := 0x06.
Definition _REGISTER_WEEKDAY : Z := 0x07.
Definition _REGISTER_MONTH : Z := 0x08.
Definition _REGISTER_YEAR : Z := 0x09.

Definition WEEKDAY_STR : list string :=
  ["SUN"; "MON"; "TUE"; "WED"; "THU"; "FRI"; "SAT"].
Definition MONTH_STR : list string :=
  ["JAN"; "FEB"; "MAR"; "APR"; "MAY"; "JUN";
   "JUL"; "AUG"; "SEP"; "OCT"; "NOV"; "DEC"].

(** [str(WEEKDAY_STR)] and [str(MONTH_STR)], as the error messages of the
    two name-accepting setters print them. *)
Definition WEEKDAY_STR_repr : string :=
  "['SUN', 'MON', 'TUE', 'WED', 'THU', 'FRI', 'SAT']".
Definition MONTH_STR_repr : string :=
  "['JAN', 'FEB', 'MAR', 'APR', 'MAY', 'JUN', 'JUL', 'AUG', 'SEP', 'OCT', 'NOV', 'DEC']".

(** ** The driver class *)

(** The constructor only stores the bus handle; here the bus is the
    state every method runs on. *)

Module RTC.

(** *** Helper functions (lines 502-535) *)

Definition __read_register (reg_addr : Z) : M Z :=
  reg_value_bytes ← readfrom_mem _ADDRESS reg_addr;
  mret (struct_unpack_B reg_value_bytes).

Definition __write_register (reg_addr value : Z) : M () :=
  match struct_pack_B value with
  | Some value_str => writeto_mem _ADDRESS reg_addr value_str
  | None => raise (Py.StructError "ubyte format requires 0 <= number <= 255")
  end.

Definition __enable_24_mode : M () :=
  ctrl1_val ← __read_register _REGISTER_CONTROL_1;
  let ctrl1_val1 := Z.land ctrl1_val 0xF7 in
  __write_register _REGISTER_CONTROL_1 ctrl1_val1.

Definition __get_bit_12_24 : M Z :=
  ctrl1_val ← __read_register _REGISTER_CONTROL_1;
  let bit_12_24 := Z.shiftr (Z.land ctrl1_val 0x08) 3 in
  mret bit_12_24.

(** [int(x)] at the places the setters call it.  Every such call comes
    after a [range] test that only numbers pass, so the error case
    is there for totality. *)
Definition int_ (v : Py.val) : M Z :=
  match Py.as_int v with
  | Some z => mret z
  | None => raise (Py.TypeError "int() argument must be a number")
  end.

(** [(tens << 4) | digit] for [tens, digit = divmod(v, 10)]: the packing
    every BCD setter performs. *)
Definition pack_bcd (v : Z) : Z :=
  let '(tens, digit) := Py.divmod v 10 in
  Z.lor (Z.shiftl tens 4) digit.

(** *** Control setters and getters (lines 82-143) *)

Definition battery_switch_over (activate : Py.val) : M () :=
  ctrl3_val ← __read_register _REGISTER_CONTROL_3;
  let ctrl3_val := Z.land ctrl3_val 0xF7 in
  ctrl3_val ←
    (if Py.is_True activate then mret (Z.land ctrl3_val 0x1F)
     else if Py.is_False activate then mret (Z.lor ctrl3_val 0xE0)
     else raise (Py.ValueError
                   "battery_switch_over only takes boolean argument"));
  __write_register _REGISTER_CONTROL_3 ctrl3_val.

Definition vbat_interrupt (activate : Py.val) : M () :=
  ctrl3_val ← __read_register _REGISTER_CONTROL_3;
  ctrl3_val ←
    (if Py.is_True activate then mret (Z.lor ctrl3_val 0x01)
     else if Py.is_False activate then mret (Z.land ctrl3_val 0xFE)
     else raise (Py.ValueError
                   "vbat_interrupt only takes boolean argument"));
  __write_register _REGISTER_CONTROL_3 ctrl3_val.

Definition battery_low : M bool :=
  ctrl3_val ← __read_register _REGISTER_CONTROL_3;
  let BLF_flag := Z.shiftr (Z.land ctrl3_val 4) 2 in
  mret (if BLF_flag =? 1 then true else false).

(** *** Basic time getters (lines 194-326) *)

Definition get_second : M Z :=
  second_bcd ← __read_register _REGISTER_SECOND;
  let tens := Z.shiftr (Z.land second_bcd 0x70) 4 in
  let digit := Z.land second_bcd 0x0F in
  mret (10 * tens + digit).

Definition get_minute : M Z :=
  minute_bcd ← __read_register _REGISTER_MINUTE;
  let tens := Z.shiftr (Z.land minute_bcd 0x70) 4 in
  let digit := Z.land minute_bcd 0x0F in
  mret (10 * tens + digit).

Definition get_hour : M Z :=
  hour_bcd ← __read_register _REGISTER_HOUR;
  bit_12_24 ← __get_bit_12_24;
  if bit_12_24 =? 0 then
    let tens := Z.shiftr (Z.land hour_bcd 0x30) 4 in
    let digit := Z.land hour_bcd 0x0F in
    mret (10 * tens + digit)
  else
    let am_pm := Z.shiftr (Z.land hour_bcd 0x20) 5 in
    let tens := Z.shiftr (Z.land hour_bcd 0x10) 4 in
    let digit := Z.land hour_bcd 0x0F in
    mret (12 * am_pm + 10 * tens + digit).

Definition get_day : M Z :=
  day_bcd ← __read_register _REGISTER_DAY;
  let tens := Z.shiftr (Z.land day_bcd 0x30) 4 in
  let digit := Z.land day_bcd 0x0F in
  mret (10 * tens + digit).

Definition get_weekday (as_str : Py.val) : M Py.val :=
  wd_8bits ← __read_register _REGISTER_WEEKDAY;
  let wd := Z.land wd_8bits 0x07 in
  if Py.is_True as_str then
    match Py.getitem WEEKDAY_STR wd with
    | Some name => mret (Py.Str name)
    | None => raise (Py.IndexError "list index out of range")
    end
  else mret (Py.Int wd).

Definition get_month (as_str : Py.val) : M Py.val :=
  month_bcd ← __read_register _REGISTER_MONTH;
  let tens := Z.shiftr (Z.land month_bcd 0x10) 4 in
  let digit := Z.land month_bcd 0x0F in
  let month := 10 * tens + digit in
  if Py.is_True as_str then
    match Py.getitem MONTH_STR (month - 1) with
    | Some name => mret (Py.Str name)
    | None => raise (Py.IndexError "list index out of range")
    end
  else mret (Py.Int month).

Definition get_year : M Z :=
  year_bcd ← __read_register _REGISTER_YEAR;
  let tens := Z.shiftr (Z.land year_bcd 0xF0) 4 in
  let digit := Z.land year_bcd 0x0F in
  mret ((10 * tens + digit) + 1970).

(** *** Basic time setters (lines 330-498) *)

Definition set_second (second : Py.val) : M () :=
  if negb (Py.in_range second 0 60) then
    raise (Py.ValueError
             ("Second value must be in range [0..59] but is "
                +:+ Py.format second))
  else
    v ← int_ second;
    let reg_value := pack_bcd v in
    __write_register _REGISTER_SECOND reg_value.

Definition set_minute (minute : Py.val) : M () :=
  if negb (Py.in_range minute 0 60) then
    raise (Py.ValueError
             ("Second value must be in range [0..59] but is "
                +:+ Py.format minute))
  else
    v ← int_ minute;
    let reg_value := pack_bcd v in
    __write_register _REGISTER_MINUTE reg_value.

(** [hour <= 12], [hour == 12] and [hour % 12] act on the number [hour]
    stands for, which [int_] yields once for both branches. *)
Definition set_hour (hour : Py.val) : M () :=
  if negb (Py.in_range hour 0 24) then
    raise (Py.ValueError
             ("Hour value for 24h must be in range [1..23] but is "
                +:+ Py.format hour))
  else
    bit_12_24 ← __get_bit_12_24;
    h ← int_ hour;
    let reg_value :=
      if bit_12_24 =? 0 then pack_bcd h
      else
        let meridien := if h <=? 12 then 0 else 1 in
        let '(tens, digit) :=
          if h =? 12 then Py.divmod 12 10 else Py.divmod (h mod 12) 10 in
        Z.lor (Z.lor (Z.shiftl meridien 5) (Z.shiftl tens 4)) digit in
    __write_register _REGISTER_HOUR reg_value.

Definition set_day (day : Py.val) : M () :=
  if negb (Py.in_range day 1 31) then
    raise (Py.ValueError
             ("Day value must be in range [1..12] but is "
                +:+ Py.format day))
  else
    v ← int_ day;
    let reg_value := pack_bcd v in
    __write_register _REGISTER_DAY reg_value.

(** [weekday_int] goes to [struct.pack] as it is; [int_] gives the number
    packed. *)
Definition set_weekday (weekday : Py.val) : M () :=
  weekday_int ←
    match weekday with
    | Py.Str name =>
        match Py.index name WEEKDAY_STR with
        | Some i => mret (Py.Int i)
        | None =>
            raise (Py.ValueError
                     ("Weekday as a string can only take the value "
                        +:+ WEEKDAY_STR_repr))
        end
    | _ => mret weekday
    end;
  if negb (Py.in_range weekday_int 0 7) then
    raise (Py.ValueError
             ("Weekday value must be in range [0..6] but is "
                +:+ Py.format weekday_int))
  else
    v ← int_ weekday_int;
    __write_register _REGISTER_WEEKDAY v.

Definition set_month (month : Py.val) : M () :=
  month_int ←
    match month with
    | Py.Str name =>
        match Py.index name MONTH_STR with
        | Some i => mret (Py.Int (i + 1))
        | None =>
            raise (Py.ValueError
                     ("Weekday as a string can only take the value "
                        +:+ MONTH_STR_repr))
        end
    | _ => mret month
    end;
  if negb (Py.in_range month_int 1 13) then
    raise (Py.ValueError
             ("Month value must be in range [1..12] but is "
                +:+ Py.format month_int))
  else
    v ← int_ month_int;
    let reg_value := pack_bcd v in
    __write_register _REGISTER_MONTH reg_value.

Definition set_year (year : Py.val) : M () :=
  if negb (Py.in_range year 1970 2120) then
    raise (Py.ValueError
             ("Year must be in range [1970..2129] but is "
                +:+ Py.format year))
  else
    v ← int_ year;
    let reg_value := pack_bcd (v - 1970) in
    __write_register _REGISTER_YEAR reg_value.

(** *** Time functions (lines 147-190) *)

Definition now : M (list Py.val) :=
  year ← get_year;
  month ← get_month (Py.Bool false);
  day ← get_day;
  hour ← get_hour;
  minute ← get_minute;
  second ← get_second;
  mret [Py.Int year; month; Py.Int day; Py.Int hour; Py.Int minute;
        Py.Int second; Py.Int 0; Py.Int 0].

(** [datetime[i]] on the tuple argument. *)
Definition item (datetime : list Py.val) (i : Z) : M Py.val :=
  match Py.getitem datetime i with
  | Some v => mret v
  | None => raise (Py.IndexError "tuple index out of range")
  end.

Definition set_time (datetime : list Py.val) : M () :=
  (item datetime 0 ≫= set_year);;
  (item datetime 1 ≫= set_month);;
  (item datetime 2 ≫= set_day);;
  (if 3 <? Z.of_nat (length datetime)
   then item datetime 3 ≫= set_hour
   else set_hour (Py.Int 0));;
  (if 4 <? Z.of_nat (length datetime)
   then item datetime 4 ≫= set_minute
   else set_minute (Py.Int 0));;
  (if 5 <? Z.of_nat (length datetime)
   then item datetime 5 ≫= set_second
   else set_second (Py.Int 0)).

(** *** Initializer (lines 54-78).  [datetime] is [None] or a tuple. *)

Definition init (datetime : option (list Py.val))
    (switch_over vbat_interrupt_ : Py.val) : M () :=
  found ← scan;
  if negb (bool_decide (_ADDRESS ∈ found)) then
    raise (Py.RuntimeError "PCF8523 module is not detected in the I2C bus")
  else
    __enable_24_mode;;
    battery_switch_over switch_over;;
    vbat_interrupt vbat_interrupt_;;
    match datetime with
    | Some datetime => set_time datetime
    | None => mret ()
    end.

End RTC.

(** ** Vocabulary of the statements *)

(** Value and final bus of a method call. *)
Definition eval {A} (m : M A) (bus : I2C) : result A := (m bus).1.
Definition exec {A} (m : M A) (bus : I2C) : I2C := (m bus).2.

(** The number held by a register of the clock. *)
Definition peek (reg : Z) (bus : I2C) : Z :=
  struct_unpack_B (default x00 (mem bus !! (_ADDRESS, reg))).

(** The byte that [struct.pack] makes of a number in 0..255. *)
Definition byte_of (v : Z) : byte := default x00 (struct_pack_B v).

(** The effect of one bus call, and of a sequence of them, on the bus. *)
Definition apply_op (bus : I2C) (op : bus_op) : I2C :=
  match op with
  | OpWrite addr memaddr data =>
      mkI2C (<[(addr, memaddr) := data]> (mem bus)) (devices bus)
            (log bus ++ [op])
  | _ => record op bus
  end.

Definition replay (ops : list bus_op) (bus : I2C) : I2C :=
  foldl apply_op bus ops.

Definition rd (reg : Z) : bus_op := OpRead _ADDRESS reg.
Definition wr (reg v : Z) : bus_op := OpWrite _ADDRESS reg (byte_of v).

(** The number a register holds after a sequence of bus calls: that of
    the last write to it, or the one it held before. *)
Fixpoint last_write (reg : Z) (ops : list bus_op) (cur : Z) : Z :=
  match ops with
  | [] => cur
  | OpWrite addr memaddr data :: ops' =>
      last_write reg ops'
        (if (addr =? _ADDRESS) && (memaddr =? reg)
         then struct_unpack_B data else cur)
  | _ :: ops' => last_write reg ops' cur
  end.

(** The hour byte of 12-hour mode, in the words of the specification:
    [(meridiem<<5)|(tens<<4)|units], where meridiem is 0 for an hour up to
    12 and 1 above, and the hour-of-12 encoded in tens and units is 12 for
    hour 12 and [hour mod 12] otherwise. *)
Definition hour12_byte (h : Z) : Z :=
  let meridiem := if decide (h ≤ 12) then 0 else 1 in
  let hour_of_12 := if decide (h = 12) then 12 else h mod 12 in
  let tens := hour_of_12 / 10 in
  let units := hour_of_12 mod 10 in
  Z.lor (Z.lor (Z.shiftl meridiem 5) (Z.shiftl tens 4)) units.

(** The 12/24 bit of control register 1, and the hour byte under it. *)
Definition mode12 (bus : I2C) : bool :=
  Z.testbit (peek _REGISTER_CONTROL_1 bus) 3.

Definition hour_byte (bus : I2C) (h : Z) : Z :=
  if mode12 bus then hour12_byte h else RTC.pack_bcd h.

(** The values the two name-accepting setters take: a number of the
    field's domain, or a name of the table, which stands for its position
    (counted from 1 for months). *)
Inductive weekday_value : Py.val → Z → Prop :=
| weekday_number v z :
    Py.as_int v = Some z → 0 ≤ z ≤ 6 → weekday_value v z
| weekday_name i name :
    WEEKDAY_STR !! i = Some name → weekday_value (Py.Str name) (Z.of_nat i).

Inductive month_value : Py.val → Z → Prop :=
| month_number v z :
    Py.as_int v = Some z → 1 ≤ z ≤ 12 → month_value v z
| month_name i name :
    MONTH_STR !! i = Some name → month_value (Py.Str name) (Z.of_nat i + 1).

(** The seven calendar fields, with the setter, the getter and the valid
    domain of each. *)
Inductive field : Type :=
| Second | Minute | Hour | Day | Weekday | Month | Year.

Definition setter (f : field) : Py.val → M () :=
  match f with
  | Second => RTC.set_second
  | Minute => RTC.set_minute
  | Hour => RTC.set_hour
  | Day => RTC.set_day
  | Weekday => RTC.set_weekday
  | Month => RTC.set_month
  | Year => RTC.set_year
  end.

Definition getter (f : field) : M Py.val :=
  match f with
  | Second => z ← RTC.get_second; mret (Py.Int z)
  | Minute => z ← RTC.get_minute; mret (Py.Int z)
  | Hour => z ← RTC.get_hour; mret (Py.Int z)
  | Day => z ← RTC.get_day; mret (Py.Int z)
  | Weekday => RTC.get_weekday (Py.Bool false)
  | Month => RTC.get_month (Py.Bool false)
  | Year => z ← RTC.get_year; mret (Py.Int z)
  end.

Definition domain (f : field) (v : Z) : Prop :=
  match f with
  | Second | Minute => 0 ≤ v ≤ 59
  | Hour => 0 ≤ v ≤ 23
  | Day => 1 ≤ v ≤ 30
  | Weekday => 0 ≤ v ≤ 6
  | Month => 1 ≤ v ≤ 12
  | Year => 1970 ≤ v ≤ 2119
  end.

(** The operations that validate an argument, and what makes an argument
    invalid for each: a value that is no number of the field's domain, a
    name that is not in the table, a flag that is no boolean. *)
Inductive operation : Type :=
| SetField (f : field)
| BatterySwitchOver
| VbatInterrupt.

Definition call (op : operation) : Py.val → M () :=
  match op with
  | SetField f => setter f
  | BatterySwitchOver => RTC.battery_switch_over
  | VbatInterrupt => RTC.vbat_interrupt
  end.

Definition outside (lo hi : Z) (v : Py.val) : Prop :=
  ∀ z, Py.as_int v = Some z → ¬ lo ≤ z ≤ hi.

Definition invalid_field (f : field) (v : Py.val) : Prop :=
  match f, v with
  | Weekday, Py.Str name => name ∉ WEEKDAY_STR
  | Month, Py.Str name => name ∉ MONTH_STR
  | Second, _ | Minute, _ => outside 0 59 v
  | Hour, _ => outside 0 23 v
  | Day, _ => outside 1 30 v
  | Weekday, _ => outside 0 6 v
  | Month, _ => outside 1 12 v
  | Year, _ => outside 1970 2119 v
  end.

Definition invalid (op : operation) (v : Py.val) : Prop :=
  match op with
  | SetField f => invalid_field f v
  | BatterySwitchOver | VbatInterrupt => ∀ b, v ≠ Py.Bool b
  end.

(** The bus calls an operation has made when it rejects its argument. *)
Definition calls_before_rejection (op : operation) : list bus_op :=
  match op with
  | SetField _ => []
  | BatterySwitchOver | VbatInterrupt => [rd _REGISTER_CONTROL_3]
  end.

(** What [set_time] takes for a position of its tuple: the item there,
    or 0 when the tuple is too short to have one. *)
Definition position (t : list Py.val) (i : nat) : Py.val :=
  default (Py.Int 0) (t !! i).

(** The hour a byte of the hour register stands for, by the mode bit. *)
Definition decode_hour (twelve : bool) (b : Z) : Z :=
  if twelve then
    12 * Z.shiftr (Z.land b 0x20) 5 + 10 * Z.shiftr (Z.land b 0x10) 4
      + Z.land b 0x0F
  else 10 * Z.shiftr (Z.land b 0x30) 4 + Z.land b 0x0F.

(** The register of each field, and the values each setter accepts with
    the number they stand for. *)
Definition register (f : field) : Z :=
  match f with
  | Second => _REGISTER_SECOND
  | Minute => _REGISTER_MINUTE
  | Hour => _REGISTER_HOUR
  | Day => _REGISTER_DAY
  | Weekday => _REGISTER_WEEKDAY
  | Month => _REGISTER_MONTH
  | Year => _REGISTER_YEAR
  end.

Definition field_value (f : field) (v : Py.val) (z : Z) : Prop :=
  match f with
  | Weekday => weekday_value v z
  | Month => month_value v z
  | _ => Py.as_int v = Some z ∧ domain f z
  end.

(** The bus calls of a setter on an accepted value. *)
Definition setter_trace (f : field) (bus : I2C) (z : Z) : list bus_op :=
  match f with
  | Hour => [rd _REGISTER_CONTROL_1; wr _REGISTER_HOUR (hour_byte bus z)]
  | Weekday => [wr _REGISTER_WEEKDAY z]
  | Year => [wr _REGISTER_YEAR (RTC.pack_bcd (z - 1970))]
  | _ => [wr (register f) (RTC.pack_bcd z)]
  end.

(** The largest number each getter can return, over all bytes its
    register can hold; the smallest is 0, and 1970 for the year. *)
Definition getter_max (f : field) : Z :=
  match f with
  | Second | Minute => 85
  | Hour | Day => 45
  | Weekday => 7
  | Month => 25
  | Year => 2135
  end.

Definition getter_min (f : field) : Z :=
  match f with Year => 1970 | _ => 0 end.

(** The two decimal digits a BCD register holds for a field's value: the
    year register counts from 1970. *)
Definition bcd_number (f : field) (z : Z) : Z :=
  match f with Year => z - 1970 | _ => z end.

(** The bytes the control operations write back, from the byte read. *)
Definition enable_24_byte (old : Z) : Z := Z.land old 0xF7.

Definition switch_over_byte (activate : bool) (old : Z) : Z :=
  if activate then Z.land (Z.land old 0xF7) 0x1F
  else Z.lor (Z.land old 0xF7) 0xE0.

Definition vbat_byte (activate : bool) (old : Z) : Z :=
  if activate then Z.lor old 0x01 else Z.land old 0xFE.

(** The bus calls of [init] up to the optional [set_time], when the
    device answers and both flags are booleans. *)
Definition init_trace (switch_over vbat : bool) (bus : I2C) : list bus_op :=
  let c1 := enable_24_byte (peek _REGISTER_CONTROL_1 bus) in
  let c3 := switch_over_byte switch_over (peek _REGISTER_CONTROL_3 bus) in
  [OpScan;
   rd _REGISTER_CONTROL_1; wr _REGISTER_CONTROL_1 c1;
   rd _REGISTER_CONTROL_3; wr _REGISTER_CONTROL_3 c3;
   rd _REGISTER_CONTROL_3; wr _REGISTER_CONTROL_3 (vbat_byte vbat c3)].

(** The byte of a two-digit number in binary-coded decimal: sixteen
    times the tens digit plus the units digit. *)
Definition bcd (n : Z) : Z := 16 * (n / 10) + n mod 10.

(** The byte of an hour in the hour register: in 24-hour mode the BCD
    byte of the hour; in 12-hour mode the BCD byte of the hour of 12 (12
    for hour 12, the hour modulo 12 otherwise) plus 32, the meridiem bit,
    for an hour above 12. *)
Definition hour_digits (twelve : bool) (h : Z) : Z :=
  if twelve then
    (if decide (h ≤ 12) then 0 else 32)
    + bcd (if decide (h = 12) then 12 else h mod 12)
  else bcd h.

(** ** Bit-level facts about the BCD layout *)

Section Bits.

Lemma lor_shiftl4 t d :
  0 ≤ d < 16 → Z.lor (Z.shiftl t 4) d = 16 * t + d.
Proof.
  intros Hd.
  rewrite <- Z.add_nocarry_lor.
  - rewrite Z.shiftl_mul_pow2 by lia. change (2 ^ 4) with 16. lia.
  - apply Z.bits_inj'. intros n Hn.
    rewrite Z.land_spec, Z.bits_0.
    destruct (Z.ltb_spec n 4).
    + rewrite Z.shiftl_spec_low by lia. reflexivity.
    + replace d with (d mod 2 ^ 4) by (apply Z.mod_small; simpl; lia).
      rewrite Z.mod_pow2_bits_high by lia. apply andb_false_r.
Qed.

Lemma low_nibble x : Z.land x 0x0F = x mod 16.
Proof. change 0x0F with (Z.ones 4). now rewrite Z.land_ones. Qed.

(** A field of [k] bits from bit [n] on, as the getters extract it. *)
Lemma bit_field n k x :
  0 ≤ n → 0 ≤ k →
  Z.shiftr (Z.land x (Z.shiftl (Z.ones k) n)) n = (x / 2 ^ n) mod 2 ^ k.
Proof.
  intros Hn Hk.
  rewrite Z.shiftr_land, Z.shiftr_shiftl_l by lia.
  rewrite Z.sub_diag, Z.shiftl_0_r, Z.land_ones by lia.
  now rewrite Z.shiftr_div_pow2 by lia.
Qed.

Lemma tens_field k x :
  0 ≤ k →
  Z.shiftr (Z.land x (Z.shiftl (Z.ones k) 4)) 4 = (x / 16) mod 2 ^ k.
Proof. intros Hk. now rewrite bit_field by lia. Qed.

Lemma unpack_bcd k v :
  0 ≤ k → 0 ≤ v < 10 * 2 ^ k →
  10 * Z.shiftr (Z.land (RTC.pack_bcd v) (Z.shiftl (Z.ones k) 4)) 4
    + Z.land (RTC.pack_bcd v) 0x0F = v.
Proof.
  intros Hk Hv. unfold RTC.pack_bcd, Py.divmod.
  rewrite tens_field by lia.
  pose proof (Z.pow_pos_nonneg 2 k) as Hp. remember (2 ^ k) as p.
  assert (0 ≤ v / 10 < p)
    by (split; [apply Z.div_pos | apply Z.div_lt_upper_bound]; lia).
  assert (0 ≤ v mod 10 < 10) by (apply Z.mod_pos_bound; lia).
  rewrite low_nibble, lor_shiftl4 by lia.
  replace ((16 * (v / 10) + v mod 10) / 16) with (v / 10)
    by (apply Z.div_unique with (r := v mod 10); lia).
  replace ((16 * (v / 10) + v mod 10) mod 16) with (v mod 10)
    by (apply Z.mod_unique with (q := v / 10); lia).
  rewrite Z.mod_small by lia.
  symmetry. apply Z.div_mod. lia.
Qed.

Lemma pack_bcd_range v : 0 ≤ v < 160 → 0 ≤ RTC.pack_bcd v < 256.
Proof.
  intros Hv. unfold RTC.pack_bcd, Py.divmod.
  assert (0 ≤ v / 10 < 16) by (split; [apply Z.div_pos | apply Z.div_lt_upper_bound]; lia).
  assert (0 ≤ v mod 10 < 10) by (apply Z.mod_pos_bound; lia).
  rewrite lor_shiftl4 by lia. lia.
Qed.

End Bits.

(** ** [struct.pack] and [struct.unpack] *)

Lemma struct_unpack_B_range b : 0 ≤ struct_unpack_B b < 256.
Proof.
  unfold struct_unpack_B. pose proof (Byte.to_N_bounded b). lia.
Qed.

Lemma struct_pack_B_Some v :
  0 ≤ v < 256 → struct_pack_B v = Some (byte_of v).
Proof.
  intros Hv. unfold byte_of, struct_pack_B.
  destruct (Z.leb_spec 0 v); [|lia].
  destruct (Byte.of_N (Z.to_N v)) as [b|] eqn:E; [reflexivity|].
  apply Byte.of_N_None_iff in E. lia.
Qed.

Lemma unpack_byte_of v : 0 ≤ v < 256 → struct_unpack_B (byte_of v) = v.
Proof.
  intros Hv. unfold byte_of, struct_pack_B, struct_unpack_B.
  destruct (Z.leb_spec 0 v); [|lia].
  destruct (Byte.of_N (Z.to_N v)) as [b|] eqn:E.
  - apply Byte.to_of_N in E. simpl. lia.
  - apply Byte.of_N_None_iff in E. lia.
Qed.

(** ** Running the monad *)

Lemma replay_app ops1 ops2 bus :
  replay ops2 (replay ops1 bus) = replay (ops1 ++ ops2) bus.
Proof. unfold replay. now rewrite foldl_app. Qed.

Lemma read_register_run reg bus :
  RTC.__read_register reg bus = (Ok (peek reg bus), replay [rd reg] bus).
Proof. reflexivity. Qed.

Lemma write_register_run reg v bus :
  0 ≤ v < 256 →
  RTC.__write_register reg v bus = (Ok (), replay [wr reg v] bus).
Proof.
  intros Hv. unfold RTC.__write_register.
  now rewrite struct_pack_B_Some.
Qed.

Lemma get_bit_12_24_run bus :
  RTC.__get_bit_12_24 bus
  = (Ok (Z.b2z (Z.testbit (peek _REGISTER_CONTROL_1 bus) 3)),
     replay [rd _REGISTER_CONTROL_1] bus).
Proof.
  unfold RTC.__get_bit_12_24, mbind, M_bind.
  rewrite read_register_run. unfold mret, M_ret. f_equal. f_equal.
  change 0x08 with (Z.shiftl 1 3).
  rewrite Z.shiftr_land, Z.shiftr_shiftl_l, Z.sub_diag, Z.shiftl_0_r by lia.
  change 1 with (Z.ones 1) at 1. rewrite Z.land_ones by lia.
  rewrite Z.testbit_spec' by lia.
  now rewrite Z.shiftr_div_pow2 by lia.
Qed.

(** Reading a register back through a sequence of bus calls: only the
    last write to that register counts. *)
Lemma peek_replay_snoc reg ops op bus :
  peek reg (replay (ops ++ [op]) bus) =
  match op with
  | OpWrite addr memaddr data =>
      if decide ((addr, memaddr) = (_ADDRESS, reg)) then struct_unpack_B data
      else peek reg (replay ops bus)
  | _ => peek reg (replay ops bus)
  end.
Proof.
  rewrite <- replay_app. generalize (replay ops bus). intros b.
  destruct op; try reflexivity.
  unfold peek, replay. simpl.
  rewrite lookup_insert. destruct (decide _); reflexivity.
Qed.

Lemma peek_replay reg ops bus :
  peek reg (replay ops bus) = last_write reg ops (peek reg bus).
Proof.
  revert bus. induction ops as [|op ops IH]; intros bus; [reflexivity|].
  change (replay (op :: ops) bus) with (replay ops (apply_op bus op)).
  rewrite IH. destruct op as [| |addr memaddr data]; try reflexivity.
  cbn [last_write]. f_equal. unfold peek. cbn [apply_op mem].
  rewrite lookup_insert.
  destruct (Z.eqb_spec addr _ADDRESS) as [->|Ha],
           (Z.eqb_spec memaddr reg) as [->|Hr]; cbn [andb].
  - now rewrite decide_True.
  - rewrite decide_False by congruence. reflexivity.
  - rewrite decide_False by congruence. reflexivity.
  - rewrite decide_False by congruence. reflexivity.
Qed.

Lemma peek_rd reg reg' bus : peek reg (replay [rd reg'] bus) = peek reg bus.
Proof. reflexivity. Qed.

Lemma peek_wr_eq reg v bus :
  0 ≤ v < 256 → peek reg (replay [wr reg v] bus) = v.
Proof.
  intros Hv. rewrite (peek_replay_snoc reg [] (wr reg v)). unfold wr.
  rewrite decide_True by reflexivity. now apply unpack_byte_of.
Qed.

Lemma peek_range reg bus : 0 ≤ peek reg bus < 256.
Proof. apply struct_unpack_B_range. Qed.

Lemma in_range_true v z lo hi :
  Py.as_int v = Some z → lo ≤ z < hi → Py.in_range v lo hi = true.
Proof.
  intros Hv Hz. unfold Py.in_range. rewrite Hv.
  apply andb_true_intro. split; [apply Z.leb_le | apply Z.ltb_lt]; lia.
Qed.

Lemma in_range_false v lo hi :
  (∀ z, Py.as_int v = Some z → ¬ lo ≤ z < hi) → Py.in_range v lo hi = false.
Proof.
  intros H. unfold Py.in_range.
  destruct (Py.as_int v) as [z|]; [|reflexivity].
  specialize (H z eq_refl).
  destruct (Z.leb_spec lo z), (Z.ltb_spec z hi); simpl; try reflexivity; lia.
Qed.

Lemma int_run v z bus : Py.as_int v = Some z → RTC.int_ v bus = (Ok z, bus).
Proof. intros Hv. unfold RTC.int_. now rewrite Hv. Qed.

(** The name tables hold no name twice, so [index] finds a name at the
    position it stands at. *)
Lemma index_lookup (l : list string) (i : nat) name :
  NoDup l → l !! i = Some name → Py.index name l = Some (Z.of_nat i).
Proof.
  intros Hnd. revert i. induction Hnd as [|y l Hy Hnd IH]; intros i Hi.
  - discriminate.
  - destruct i as [|i]; simpl in *.
    + injection Hi as ->. now rewrite String.eqb_refl.
    + destruct (String.eqb_spec name y) as [->|_].
      * exfalso. apply Hy. eapply list_elem_of_lookup_2. eassumption.
      * rewrite (IH i Hi). simpl. f_equal. lia.
Qed.

Lemma index_None (l : list string) name :
  name ∉ l → Py.index name l = None.
Proof.
  induction l as [|y l IH]; intros Hn; simpl; [reflexivity|].
  apply not_elem_of_cons in Hn as [Hne Hn].
  destruct (String.eqb_spec name y); [contradiction|].
  now rewrite IH.
Qed.

Lemma WEEKDAY_STR_NoDup : NoDup WEEKDAY_STR.
Proof. apply (bool_decide_unpack _). vm_compute. reflexivity. Qed.

Lemma MONTH_STR_NoDup : NoDup MONTH_STR.
Proof. apply (bool_decide_unpack _). vm_compute. reflexivity. Qed.

(** A property of the integers of a short interval, checked one by one. *)
Lemma forall_range (P : Z → Prop) `{!∀ z, Decision (P z)} (lo n : Z) :
  bool_decide (Forall P (seqZ lo n)) = true → ∀ z, lo ≤ z < lo + n → P z.
Proof.
  intros Hall z Hz. apply bool_decide_eq_true in Hall.
  rewrite Forall_forall in Hall. apply Hall, elem_of_seqZ. exact Hz.
Qed.

Lemma hour12_byte_range h : 0 ≤ h < 24 → 0 ≤ hour12_byte h < 256.
Proof. revert h. apply (forall_range _ 0 24). vm_compute. reflexivity. Qed.

(** The 12-hour branch of [set_hour] computes the byte the specification
    describes. *)
Lemma set_hour_12h_value h :
  0 ≤ h < 24 →
  (let meridien := if h <=? 12 then 0 else 1 in
   let '(tens, digit) :=
     if h =? 12 then Py.divmod 12 10 else Py.divmod (h mod 12) 10 in
   Z.lor (Z.lor (Z.shiftl meridien 5) (Z.shiftl tens 4)) digit)
  = hour12_byte h.
Proof. revert h. apply (forall_range _ 0 24). vm_compute. reflexivity. Qed.

(** ** What each setter does on a valid argument *)

Section Setters.

Variables (v : Py.val) (z : Z) (bus : I2C).
Hypothesis Hv : Py.as_int v = Some z.

Ltac enter f :=
  unfold f; erewrite in_range_true by (try exact Hv; lia);
  cbn [negb]; unfold mbind, M_bind; rewrite (int_run _ _ _ Hv).

Lemma set_second_run :
  0 ≤ z < 60 →
  RTC.set_second v bus
  = (Ok (), replay [wr _REGISTER_SECOND (RTC.pack_bcd z)] bus).
Proof.
  intros Hz. enter RTC.set_second.
  apply write_register_run, pack_bcd_range. lia.
Qed.

Lemma set_minute_run :
  0 ≤ z < 60 →
  RTC.set_minute v bus
  = (Ok (), replay [wr _REGISTER_MINUTE (RTC.pack_bcd z)] bus).
Proof.
  intros Hz. enter RTC.set_minute.
  apply write_register_run, pack_bcd_range. lia.
Qed.

Lemma set_day_run :
  1 ≤ z < 31 →
  RTC.set_day v bus
  = (Ok (), replay [wr _REGISTER_DAY (RTC.pack_bcd z)] bus).
Proof.
  intros Hz. enter RTC.set_day.
  apply write_register_run, pack_bcd_range. lia.
Qed.

Lemma set_year_run :
  1970 ≤ z < 2120 →
  RTC.set_year v bus
  = (Ok (), replay [wr _REGISTER_YEAR (RTC.pack_bcd (z - 1970))] bus).
Proof.
  intros Hz. enter RTC.set_year.
  apply write_register_run, pack_bcd_range. lia.
Qed.

Lemma set_hour_run :
  0 ≤ z < 24 →
  RTC.set_hour v bus
  = (Ok (), replay [rd _REGISTER_CONTROL_1;
                    wr _REGISTER_HOUR (hour_byte bus z)] bus).
Proof.
  intros Hz. unfold RTC.set_hour.
  erewrite in_range_true by (try exact Hv; lia).
  cbn [negb]. unfold mbind, M_bind.
  rewrite get_bit_12_24_run, (int_run _ _ _ Hv).
  unfold hour_byte, mode12.
  destruct (Z.testbit (peek _REGISTER_CONTROL_1 bus) 3); cbn [Z.b2z Z.eqb].
  - pose proof (set_hour_12h_value z Hz) as E.
    cbv zeta in E |- *. rewrite E.
    rewrite write_register_run by now apply hour12_byte_range.
    now rewrite replay_app.
  - rewrite write_register_run by (apply pack_bcd_range; lia).
    now rewrite replay_app.
Qed.

End Setters.

Lemma set_weekday_run v z bus :
  weekday_value v z →
  RTC.set_weekday v bus = (Ok (), replay [wr _REGISTER_WEEKDAY z] bus).
Proof.
  intros Hv. unfold RTC.set_weekday, mbind, M_bind.
  assert (∃ w, (match v with
                | Py.Str name =>
                    match Py.index name WEEKDAY_STR with
                    | Some i => mret (Py.Int i)
                    | None =>
                        raise (Py.ValueError
                                 ("Weekday as a string can only take the value "
                                    +:+ WEEKDAY_STR_repr))
                    end
                | _ => mret v
                end) bus = (Ok w, bus) ∧ Py.as_int w = Some z ∧ 0 ≤ z < 7)
    as (w & -> & Hw & Hz).
  { inversion Hv as [v' z' Hint Hz | i name Hi]; subst.
    - exists v. split; [|split; [assumption | lia]].
      destruct v; try reflexivity. discriminate.
    - exists (Py.Int (Z.of_nat i)).
      rewrite (index_lookup _ _ _ WEEKDAY_STR_NoDup Hi).
      split; [reflexivity|]. split; [reflexivity|].
      apply lookup_lt_Some in Hi. simpl in Hi. lia. }
  rewrite (in_range_true _ _ _ _ Hw Hz). cbn [negb].
  rewrite (int_run _ _ _ Hw).
  apply write_register_run. lia.
Qed.

Lemma set_month_run v z bus :
  month_value v z →
  RTC.set_month v bus
  = (Ok (), replay [wr _REGISTER_MONTH (RTC.pack_bcd z)] bus).
Proof.
  intros Hv. unfold RTC.set_month, mbind, M_bind.
  assert (∃ w, (match v with
                | Py.Str name =>
                    match Py.index name MONTH_STR with
                    | Some i => mret (Py.Int (i + 1))
                    | None =>
                        raise (Py.ValueError
                                 ("Weekday as a string can only take the value "
                                    +:+ MONTH_STR_repr))
                    end
                | _ => mret v
                end) bus = (Ok w, bus) ∧ Py.as_int w = Some z ∧ 1 ≤ z < 13)
    as (w & -> & Hw & Hz).
  { inversion Hv as [v' z' Hint Hz | i name Hi]; subst.
    - exists v. split; [|split; [assumption | lia]].
      destruct v; try reflexivity. discriminate.
    - exists (Py.Int (Z.of_nat i + 1)).
      rewrite (index_lookup _ _ _ MONTH_STR_NoDup Hi).
      split; [reflexivity|]. split; [reflexivity|].
      apply lookup_lt_Some in Hi. simpl in Hi. lia. }
  rewrite (in_range_true _ _ _ _ Hw Hz). cbn [negb].
  rewrite (int_run _ _ _ Hw).
  apply write_register_run, pack_bcd_range. lia.
Qed.

(** ** Round trip of the register codec *)

(** A BCD register written with [pack_bcd v] decodes to [v] again when
    the getter keeps [k] bits of the tens field and the tens digit fits
    in them. *)
Lemma bcd_read_back reg k v bus :
  0 ≤ k → 0 ≤ v < 10 * 2 ^ k → v < 160 →
  let b := peek reg (replay [wr reg (RTC.pack_bcd v)] bus) in
  10 * Z.shiftr (Z.land b (Z.shiftl (Z.ones k) 4)) 4 + Z.land b 0x0F = v.
Proof.
  intros Hk Hv Hb. cbv zeta.
  rewrite peek_wr_eq by (apply pack_bcd_range; lia).
  now apply unpack_bcd.
Qed.

(** In 12-hour mode too, the hour byte decodes to the hour written. *)
Lemma hour12_read_back h :
  0 ≤ h < 24 →
  let b := hour12_byte h in
  12 * Z.shiftr (Z.land b 0x20) 5 + 10 * Z.shiftr (Z.land b 0x10) 4
    + Z.land b 0x0F = h.
Proof. revert h. apply (forall_range _ 0 24). vm_compute. reflexivity. Qed.

Lemma get_hour_after_set_hour v z bus :
  Py.as_int v = Some z → 0 ≤ z < 24 →
  eval (RTC.set_hour v;; RTC.get_hour) bus = Ok z.
Proof.
  intros Hv Hz. unfold eval, mbind, M_bind.
  rewrite (set_hour_run v z bus Hv Hz).
  unfold RTC.get_hour, mbind, M_bind.
  rewrite read_register_run, get_bit_12_24_run.
  rewrite peek_rd, !peek_replay.
  cbn [last_write rd wr Z.eqb Pos.eqb andb _ADDRESS _REGISTER_HOUR
       _REGISTER_CONTROL_1].
  unfold hour_byte, mode12.
  destruct (Z.testbit (peek _REGISTER_CONTROL_1 bus) 3);
    cbn [Z.b2z Z.eqb]; unfold mret, M_ret; cbn [fst]; f_equal.
  - rewrite unpack_byte_of by now apply hour12_byte_range.
    now apply hour12_read_back.
  - rewrite unpack_byte_of by (apply pack_bcd_range; lia).
    change 0x30 with (Z.shiftl (Z.ones 2) 4). apply unpack_bcd; lia.
Qed.

(** C1. Round trip: for each of the seven fields and each value of its
    valid domain (second and minute 0..59, hour 0..23 with the clock in
    24-hour mode, day 1..30, weekday 0..6, month 1..12, year 1970..2119),
    setting the field and then getting it returns the value set. *)
Theorem field_round_trip (f : field) (v : Z) (bus : I2C) :
  domain f v →
  (f = Hour → mode12 bus = false) →
  eval (setter f (Py.Int v);; getter f) bus = Ok (Py.Int v).
Proof.
  intros Hd Hmode.
  destruct f; cbn [setter getter domain] in *.
  - unfold eval, mbind, M_bind.
    rewrite (set_second_run (Py.Int v) v bus eq_refl) by lia.
    unfold RTC.get_second, mbind, M_bind. rewrite read_register_run.
    unfold mret, M_ret; cbn [fst]. do 2 f_equal.
    change 0x70 with (Z.shiftl (Z.ones 3) 4). apply bcd_read_back; lia.
  - unfold eval, mbind, M_bind.
    rewrite (set_minute_run (Py.Int v) v bus eq_refl) by lia.
    unfold RTC.get_minute, mbind, M_bind. rewrite read_register_run.
    unfold mret, M_ret; cbn [fst]. do 2 f_equal.
    change 0x70 with (Z.shiftl (Z.ones 3) 4). apply bcd_read_back; lia.
  - pose proof (get_hour_after_set_hour (Py.Int v) v bus eq_refl) as H.
    specialize (H ltac:(lia)).
    unfold eval, mbind, M_bind in *.
    destruct (RTC.set_hour (Py.Int v) bus) as [[[]|e] bus'];
      cbn [fst] in *; [|discriminate].
    destruct (RTC.get_hour bus') as [[h|e] bus'']; cbn [fst] in *;
      [|discriminate].
    injection H as ->. reflexivity.
  - unfold eval, mbind, M_bind.
    rewrite (set_day_run (Py.Int v) v bus eq_refl) by lia.
    unfold RTC.get_day, mbind, M_bind. rewrite read_register_run.
    unfold mret, M_ret; cbn [fst]. do 2 f_equal.
    change 0x30 with (Z.shiftl (Z.ones 2) 4). apply bcd_read_back; lia.
  - unfold eval, mbind, M_bind.
    rewrite (set_weekday_run (Py.Int v) v bus)
      by (apply weekday_number; [reflexivity | lia]).
    unfold RTC.get_weekday, mbind, M_bind. rewrite read_register_run.
    cbn [Py.is_True]. unfold mret, M_ret; cbn [fst]. do 2 f_equal.
    rewrite peek_wr_eq by lia.
    change 0x07 with (Z.ones 3). rewrite Z.land_ones by lia.
    apply Z.mod_small. simpl. lia.
  - unfold eval, mbind, M_bind.
    rewrite (set_month_run (Py.Int v) v bus)
      by (apply month_number; [reflexivity | lia]).
    unfold RTC.get_month, mbind, M_bind. rewrite read_register_run.
    cbn [Py.is_True]. unfold mret, M_ret; cbn [fst]. do 2 f_equal.
    change 0x10 with (Z.shiftl (Z.ones 1) 4). apply bcd_read_back; lia.
  - unfold eval, mbind, M_bind.
    rewrite (set_year_run (Py.Int v) v bus eq_refl) by lia.
    unfold RTC.get_year, mbind, M_bind. rewrite read_register_run.
    unfold mret, M_ret; cbn [fst]. do 2 f_equal.
    change 0xF0 with (Z.shiftl (Z.ones 4) 4).
    rewrite bcd_read_back by lia. lia.
Qed.

Lemma field_round_trip_witness :
  let bus := mkI2C ∅ [104] [] in
  domain Hour 16 ∧ (Hour = Hour → mode12 bus = false) ∧
  eval (setter Hour (Py.Int 16);; getter Hour) bus = Ok (Py.Int 16).
Proof.
  cbv zeta.
  assert (Hd : domain Hour 16) by (simpl; lia).
  assert (Hm : Hour = Hour → mode12 (mkI2C ∅ [104] []) = false)
    by (intros _; vm_compute; reflexivity).
  split; [exact Hd|]. split; [exact Hm|].
  exact (field_round_trip Hour 16 (mkI2C ∅ [104] []) Hd Hm).
Defined.

(** ** Rejection of out-of-domain values *)

(** C2. The eleven boundary values are rejected with a ValueError and the
    bus is left untouched (no register written, none read).  The messages
    are the ones the code formats: that of [set_minute] names the field
    Second, that of [set_day] gives the bound [1..12], that of [set_hour]
    the bound [1..23] and that of [set_year] the bound [1970..2129], which
    are not the field and the bounds the setters check. *)
Theorem boundary_rejection (bus : I2C) :
  RTC.set_second (Py.Int 60) bus
  = (Raise (Py.ValueError "Second value must be in range [0..59] but is 60"),
     bus) ∧
  RTC.set_minute (Py.Int 60) bus
  = (Raise (Py.ValueError "Second value must be in range [0..59] but is 60"),
     bus) ∧
  RTC.set_day (Py.Int 0) bus
  = (Raise (Py.ValueError "Day value must be in range [1..12] but is 0"),
     bus) ∧
  RTC.set_day (Py.Int 31) bus
  = (Raise (Py.ValueError "Day value must be in range [1..12] but is 31"),
     bus) ∧
  RTC.set_month (Py.Int 0) bus
  = (Raise (Py.ValueError "Month value must be in range [1..12] but is 0"),
     bus) ∧
  RTC.set_month (Py.Int 13) bus
  = (Raise (Py.ValueError "Month value must be in range [1..12] but is 13"),
     bus) ∧
  RTC.set_year (Py.Int 1969) bus
  = (Raise (Py.ValueError "Year must be in range [1970..2129] but is 1969"),
     bus) ∧
  RTC.set_year (Py.Int 2120) bus
  = (Raise (Py.ValueError "Year must be in range [1970..2129] but is 2120"),
     bus) ∧
  RTC.set_weekday (Py.Int 7) bus
  = (Raise (Py.ValueError "Weekday value must be in range [0..6] but is 7"),
     bus) ∧
  RTC.set_hour (Py.Int 24) bus
  = (Raise (Py.ValueError
              "Hour value for 24h must be in range [1..23] but is 24"),
     bus) ∧
  RTC.set_hour (Py.Int (-1)) bus
  = (Raise (Py.ValueError
              "Hour value for 24h must be in range [1..23] but is -1"),
     bus).
Proof. repeat split; vm_compute; reflexivity. Qed.

(** ** Validation and bus access *)

Lemma outside_in_range lo hi v :
  outside lo (hi - 1) v → Py.in_range v lo hi = false.
Proof.
  intros Ho. apply in_range_false. intros z Hz Hr.
  apply (Ho z Hz). lia.
Qed.

Lemma not_bool_flags v :
  (∀ b, v ≠ Py.Bool b) → Py.is_True v = false ∧ Py.is_False v = false.
Proof.
  intros Hv. destruct v as [|[]| |]; try (split; reflexivity).
  - now destruct (Hv true).
  - now destruct (Hv false).
Qed.

Lemma setter_rejects f v bus :
  invalid_field f v → ∃ msg, setter f v bus = (Raise (Py.ValueError msg), bus).
Proof.
  intros Hi. destruct f; cbn [setter].
  - apply (outside_in_range 0 60) in Hi.
    unfold RTC.set_second. rewrite Hi. eexists. reflexivity.
  - apply (outside_in_range 0 60) in Hi.
    unfold RTC.set_minute. rewrite Hi. eexists. reflexivity.
  - apply (outside_in_range 0 24) in Hi.
    unfold RTC.set_hour. rewrite Hi. eexists. reflexivity.
  - apply (outside_in_range 1 31) in Hi.
    unfold RTC.set_day. rewrite Hi. eexists. reflexivity.
  - unfold RTC.set_weekday, mbind, M_bind.
    destruct v as [|b|z|name]; cbn [invalid_field] in Hi;
      try (apply (outside_in_range 0 7) in Hi; unfold mret, M_ret;
           rewrite Hi; eexists; reflexivity).
    rewrite (index_None _ _ Hi). eexists. reflexivity.
  - unfold RTC.set_month, mbind, M_bind.
    destruct v as [|b|z|name]; cbn [invalid_field] in Hi;
      try (apply (outside_in_range 1 13) in Hi; unfold mret, M_ret;
           rewrite Hi; eexists; reflexivity).
    rewrite (index_None _ _ Hi). eexists. reflexivity.
  - apply (outside_in_range 1970 2120) in Hi.
    unfold RTC.set_year. rewrite Hi. eexists. reflexivity.
Qed.

(** C3, as the code has it.  An invalid argument makes each of the nine
    validating operations raise a ValueError with no register written.
    The seven field setters raise it before any bus access;
    [battery_switch_over] and [vbat_interrupt] have read control register 3
    once by then, since they read the register before they look at the
    flag. *)
Theorem invalid_argument_rejected (op : operation) (v : Py.val) (bus : I2C) :
  invalid op v →
  ∃ msg,
    call op v bus
    = (Raise (Py.ValueError msg), replay (calls_before_rejection op) bus)
    ∧ mem (exec (call op v) bus) = mem bus.
Proof.
  intros Hi. destruct op as [f| |]; cbn [call invalid calls_before_rejection] in *.
  - destruct (setter_rejects f v bus Hi) as [msg Hmsg].
    exists msg. unfold exec. rewrite Hmsg. split; reflexivity.
  - destruct (not_bool_flags v Hi) as [HT HF].
    eexists. unfold exec, RTC.battery_switch_over, mbind, M_bind.
    rewrite read_register_run, HT, HF. split; reflexivity.
  - destruct (not_bool_flags v Hi) as [HT HF].
    eexists. unfold exec, RTC.vbat_interrupt, mbind, M_bind.
    rewrite read_register_run, HT, HF. split; reflexivity.
Qed.

Lemma invalid_argument_rejected_witness :
  let bus := mkI2C ∅ [104] [] in
  invalid VbatInterrupt (Py.Str "on") ∧
  ∃ msg,
    call VbatInterrupt (Py.Str "on") bus
    = (Raise (Py.ValueError msg),
       replay (calls_before_rejection VbatInterrupt) bus)
    ∧ mem (exec (call VbatInterrupt (Py.Str "on")) bus) = mem bus.
Proof.
  cbv zeta.
  assert (Hi : invalid VbatInterrupt (Py.Str "on"))
    by (intros b; discriminate).
  split; [exact Hi|].
  exact (invalid_argument_rejected VbatInterrupt (Py.Str "on")
           (mkI2C ∅ [104] []) Hi).
Defined.

(** C3, as stated, fails: with the flag [1], which is no boolean,
    [battery_switch_over] raises only after it has read control register 3,
    so the bus is not as it was before the call. *)
Lemma validation_before_bus_access_counterexample :
  let bus := mkI2C ∅ [104] [] in
  invalid BatterySwitchOver (Py.Int 1) ∧
  log (exec (call BatterySwitchOver (Py.Int 1)) bus)
  = [OpRead 104 _REGISTER_CONTROL_3] ∧
  ¬ ∃ e, call BatterySwitchOver (Py.Int 1) bus = (Raise e, bus).
Proof.
  cbv zeta. split; [intros b; discriminate|].
  split; [reflexivity|].
  intros [e He]. vm_compute in He. discriminate He.
Qed.

(** ** Control register 3 *)

(** Evaluate the bits of the mask constants. *)
Ltac mask_bits :=
  rewrite ?Z.lor_spec, ?Z.land_spec;
  repeat match goal with
    | |- context [Z.testbit (Zpos ?p) ?i] =>
        let r := eval vm_compute in (Z.testbit (Zpos p) i) in
        change (Z.testbit (Zpos p) i) with r
    end;
  rewrite ?andb_true_r, ?andb_false_r, ?orb_true_r, ?orb_false_r.

Lemma switch_over_value_range (b : bool) old :
  0 ≤ old < 256 →
  0 ≤ (if b then Z.land (Z.land old 0xF7) 0x1F
       else Z.lor (Z.land old 0xF7) 0xE0) < 256.
Proof.
  revert old.
  destruct b; apply (forall_range _ 0 256); vm_compute; reflexivity.
Qed.

(** C4. For either boolean flag and whatever control register 3 holds,
    [battery_switch_over] reads control register 3 once and writes it once;
    in the byte written bit 3 is clear, bits 5 to 7 are clear for [True]
    and set for [False], and bits 0, 1, 2 and 4 are those read. *)
Theorem battery_switch_over_read_modify_write (b : bool) (bus : I2C) :
  let old := peek _REGISTER_CONTROL_3 bus in
  ∃ new,
    RTC.battery_switch_over (Py.Bool b) bus
    = (Ok (), replay [rd _REGISTER_CONTROL_3;
                      wr _REGISTER_CONTROL_3 new] bus)
    ∧ peek _REGISTER_CONTROL_3
        (exec (RTC.battery_switch_over (Py.Bool b)) bus) = new
    ∧ Z.testbit new 3 = false
    ∧ (∀ i, 5 ≤ i ≤ 7 → Z.testbit new i = negb b)
    ∧ (∀ i, i ∈ [0; 1; 2; 4] → Z.testbit new i = Z.testbit old i).
Proof.
  intros old.
  pose proof (switch_over_value_range b old (peek_range _ _)) as Hnew.
  assert (Hrun :
    RTC.battery_switch_over (Py.Bool b) bus
    = (Ok (), replay [rd _REGISTER_CONTROL_3;
                      wr _REGISTER_CONTROL_3
                        (if b then Z.land (Z.land old 0xF7) 0x1F
                         else Z.lor (Z.land old 0xF7) 0xE0)] bus)).
  { unfold RTC.battery_switch_over, mbind, M_bind.
    rewrite read_register_run. fold old.
    destruct b; cbn [Py.is_True Py.is_False]; unfold mret, M_ret;
      rewrite write_register_run by exact Hnew; now rewrite replay_app. }
  eexists. split; [exact Hrun|]. split; [|split; [|split]].
  - unfold exec. rewrite Hrun. cbn [snd].
    rewrite peek_replay.
    cbn [last_write rd wr Z.eqb Pos.eqb andb _ADDRESS _REGISTER_CONTROL_3].
    now apply unpack_byte_of.
  - destruct b; mask_bits; reflexivity.
  - intros i Hi.
    assert (i = 5 ∨ i = 6 ∨ i = 7) as [-> | [-> | ->]] by lia;
      destruct b; mask_bits; reflexivity.
  - intros i Hi.
    apply elem_of_cons in Hi as [-> | Hi];
      [|apply elem_of_cons in Hi as [-> | Hi];
        [|apply elem_of_cons in Hi as [-> | Hi];
          [|apply list_elem_of_singleton in Hi as ->]]];
      destruct b; mask_bits; reflexivity.
Qed.

(** ** Whole-datetime operations *)

Lemma getitem_lookup {A} (l : list A) (i : nat) x :
  l !! i = Some x → Py.getitem l (Z.of_nat i) = Some x.
Proof.
  intros Hx. unfold Py.getitem.
  pose proof (lookup_lt_Some _ _ _ Hx) as Hlt.
  destruct (Z.leb_spec 0 (Z.of_nat i)); [|lia].
  destruct (Z.ltb_spec (Z.of_nat i) (Z.of_nat (length l))); [|lia].
  cbn [andb]. now rewrite Nat2Z.id.
Qed.

Lemma item_run (datetime : list Py.val) (i : nat) x :
  datetime !! i = Some x → RTC.item datetime (Z.of_nat i) = mret x.
Proof.
  intros Hx. unfold RTC.item. now rewrite (getitem_lookup _ _ _ Hx).
Qed.

(** An optional position of the tuple: the item there, or 0. *)
Lemma optional_item (datetime : list Py.val) (i : nat) (set : Py.val → M ()) :
  (if Z.of_nat i <? Z.of_nat (length datetime)
   then RTC.item datetime (Z.of_nat i) ≫= set
   else set (Py.Int 0))
  = set (default (Py.Int 0) (datetime !! i)).
Proof.
  destruct (Z.ltb_spec (Z.of_nat i) (Z.of_nat (length datetime))) as [Hlt|Hge].
  - destruct (lookup_lt_is_Some_2 datetime i ltac:(lia)) as [x Hx].
    rewrite (item_run _ _ _ Hx), Hx. reflexivity.
  - rewrite (lookup_ge_None_2 datetime i) by lia. reflexivity.
Qed.

Lemma mode12_replay ops bus :
  (∀ data, OpWrite _ADDRESS _REGISTER_CONTROL_1 data ∉ ops) →
  mode12 (replay ops bus) = mode12 bus.
Proof.
  intros Hops. unfold mode12. f_equal. rewrite peek_replay.
  generalize (peek _REGISTER_CONTROL_1 bus). intros cur.
  induction ops as [|op ops IH]; [reflexivity|].
  assert (∀ data, OpWrite _ADDRESS _REGISTER_CONTROL_1 data ∉ ops) as Hops'
    by (intros data Hin; apply (Hops data); now right).
  destruct op as [| |addr memaddr data]; cbn [last_write]; auto.
  destruct (Z.eqb_spec addr _ADDRESS) as [->|_]; cbn [andb]; auto.
  destruct (Z.eqb_spec memaddr _REGISTER_CONTROL_1) as [->|_]; auto.
  exfalso. apply (Hops data). left.
Qed.

Section SetTime.

Variables (t : list Py.val) (bus : I2C).
Variables (year month day : Py.val) (y mo d h mi s : Z).

Hypothesis Hyear : t !! 0%nat = Some year.
Hypothesis Hmonth : t !! 1%nat = Some month.
Hypothesis Hday : t !! 2%nat = Some day.

Hypothesis Vyear : Py.as_int year = Some y ∧ 1970 ≤ y ≤ 2119.
Hypothesis Vmonth : month_value month mo.
Hypothesis Vday : Py.as_int day = Some d ∧ 1 ≤ d ≤ 30.
Hypothesis Vhour :
  Py.as_int (default (Py.Int 0) (t !! 3%nat)) = Some h ∧ 0 ≤ h ≤ 23.
Hypothesis Vminute :
  Py.as_int (default (Py.Int 0) (t !! 4%nat)) = Some mi ∧ 0 ≤ mi ≤ 59.
Hypothesis Vsecond :
  Py.as_int (default (Py.Int 0) (t !! 5%nat)) = Some s ∧ 0 ≤ s ≤ 59.

Lemma set_time_run :
  RTC.set_time t bus
  = (Ok (), replay [wr _REGISTER_YEAR (RTC.pack_bcd (y - 1970));
                    wr _REGISTER_MONTH (RTC.pack_bcd mo);
                    wr _REGISTER_DAY (RTC.pack_bcd d);
                    rd _REGISTER_CONTROL_1;
                    wr _REGISTER_HOUR (hour_byte bus h);
                    wr _REGISTER_MINUTE (RTC.pack_bcd mi);
                    wr _REGISTER_SECOND (RTC.pack_bcd s)] bus).
Proof.
  destruct Vyear as [Ey Ry], Vday as [Ed Rd], Vhour as [Eh Rh],
    Vminute as [Emi Rmi], Vsecond as [Es Rs].
  unfold RTC.set_time.
  pose proof (item_run t 0 _ Hyear) as I0.
  pose proof (item_run t 1 _ Hmonth) as I1.
  pose proof (item_run t 2 _ Hday) as I2.
  pose proof (optional_item t 3 RTC.set_hour) as O3.
  pose proof (optional_item t 4 RTC.set_minute) as O4.
  pose proof (optional_item t 5 RTC.set_second) as O5.
  change (Z.of_nat 0) with 0 in I0. change (Z.of_nat 1) with 1 in I1.
  change (Z.of_nat 2) with 2 in I2. change (Z.of_nat 3) with 3 in O3.
  change (Z.of_nat 4) with 4 in O4. change (Z.of_nat 5) with 5 in O5.
  rewrite I0, I1, I2, O3, O4, O5.
  unfold mbind, M_bind, mret, M_ret.
  rewrite (set_year_run _ _ _ Ey) by lia.
  rewrite (set_month_run _ _ _ Vmonth).
  rewrite (set_day_run _ _ _ Ed) by lia.
  rewrite (set_hour_run _ _ _ Eh) by lia.
  rewrite (set_minute_run _ _ _ Emi) by lia.
  rewrite (set_second_run _ _ _ Es) by lia.
  rewrite !replay_app. cbn [app].
  unfold hour_byte. rewrite mode12_replay; [reflexivity|].
  intros data Hin. unfold wr in Hin.
  repeat (apply elem_of_cons in Hin as [Hin|Hin]; [discriminate Hin|]).
  inversion Hin.
Qed.

End SetTime.

Lemma pack_bcd_digits u : 0 ≤ u < 160 → RTC.pack_bcd u = bcd u.
Proof.
  intros Hu. unfold RTC.pack_bcd, Py.divmod, bcd.
  apply lor_shiftl4.
  pose proof (Z.mod_pos_bound u 10 ltac:(lia)). lia.
Qed.

Lemma bcd_range u : 0 ≤ u < 160 → 0 ≤ bcd u < 256.
Proof.
  intros Hu. rewrite <- pack_bcd_digits by exact Hu.
  now apply pack_bcd_range.
Qed.

Lemma hour_byte_digits bus h :
  0 ≤ h < 24 → hour_byte bus h = hour_digits (mode12 bus) h.
Proof.
  intros Hh. unfold hour_byte, hour_digits. destruct (mode12 bus).
  - revert h Hh. apply (forall_range _ 0 24). vm_compute. reflexivity.
  - apply pack_bcd_digits. lia.
Qed.

Lemma hour_digits_range twelve h :
  0 ≤ h < 24 → 0 ≤ hour_digits twelve h < 256.
Proof.
  revert h. destruct twelve;
    apply (forall_range _ 0 24); vm_compute; reflexivity.
Qed.

(** C6. For a tuple of at least three items with valid field values,
    [set_time] succeeds and its bus calls are, in this order: the year
    register written with the BCD byte of item 0 less 1970, the month
    register with the BCD byte of item 1, the day register with that of
    item 2, then (after the read of the mode bit that [set_hour] makes)
    the hour register with the hour byte of item 3 and the minute and
    second registers with the BCD bytes of items 4 and 5, each of the last
    three items taken as 0 when the tuple is too short to have it.  After
    the call the six registers hold these bytes. *)
Theorem set_time_writes (t : list Py.val) (bus : I2C) (y mo d h mi s : Z) :
  (3 ≤ length t)%nat →
  Py.as_int (position t 0) = Some y ∧ 1970 ≤ y ≤ 2119 →
  month_value (position t 1) mo →
  Py.as_int (position t 2) = Some d ∧ 1 ≤ d ≤ 30 →
  Py.as_int (position t 3) = Some h ∧ 0 ≤ h ≤ 23 →
  Py.as_int (position t 4) = Some mi ∧ 0 ≤ mi ≤ 59 →
  Py.as_int (position t 5) = Some s ∧ 0 ≤ s ≤ 59 →
  RTC.set_time t bus
  = (Ok (), replay [wr _REGISTER_YEAR (bcd (y - 1970));
                    wr _REGISTER_MONTH (bcd mo);
                    wr _REGISTER_DAY (bcd d);
                    rd _REGISTER_CONTROL_1;
                    wr _REGISTER_HOUR (hour_digits (mode12 bus) h);
                    wr _REGISTER_MINUTE (bcd mi);
                    wr _REGISTER_SECOND (bcd s)] bus)
  ∧ (let bus' := exec (RTC.set_time t) bus in
     peek _REGISTER_YEAR bus' = bcd (y - 1970)
     ∧ peek _REGISTER_MONTH bus' = bcd mo
     ∧ peek _REGISTER_DAY bus' = bcd d
     ∧ peek _REGISTER_HOUR bus' = hour_digits (mode12 bus) h
     ∧ peek _REGISTER_MINUTE bus' = bcd mi
     ∧ peek _REGISTER_SECOND bus' = bcd s).
Proof.
  intros Hlen Vy Vmo Vd Vh Vmi Vs.
  assert (∀ i, (i < 3)%nat → t !! i = Some (position t i)) as Hpos.
  { intros i Hi. unfold position.
    destruct (lookup_lt_is_Some_2 t i ltac:(lia)) as [x ->]. reflexivity. }
  assert (1 ≤ mo ≤ 12) as Rmo.
  { destruct Vmo as [v z _ Hz | i name Hi]; [exact Hz|].
    apply lookup_lt_Some in Hi. simpl in Hi. lia. }
  pose proof (set_time_run t bus (position t 0) (position t 1) (position t 2)
                y mo d h mi s (Hpos 0%nat ltac:(lia)) (Hpos 1%nat ltac:(lia))
                (Hpos 2%nat ltac:(lia)) Vy Vmo Vd Vh Vmi Vs) as Hrun.
  destruct Vy as [_ Ry], Vd as [_ Rd], Vh as [_ Rh], Vmi as [_ Rmi],
    Vs as [_ Rs].
  rewrite !pack_bcd_digits in Hrun by lia.
  rewrite hour_byte_digits in Hrun by lia.
  split; [exact Hrun|].
  cbv zeta. unfold exec. rewrite Hrun. cbn [snd].
  rewrite !peek_replay.
  cbn [last_write rd wr Z.eqb Pos.eqb andb _ADDRESS
       _REGISTER_CONTROL_1 _REGISTER_SECOND _REGISTER_MINUTE _REGISTER_HOUR
       _REGISTER_DAY _REGISTER_MONTH _REGISTER_YEAR].
  rewrite !unpack_byte_of
    by (first [apply hour_digits_range | apply bcd_range]; lia).
  repeat split.
Qed.

Lemma set_time_writes_witness :
  let t := [Py.Int 2019; Py.Str "FEB"; Py.Int 28; Py.Int 23] in
  let bus := mkI2C ∅ [104] [] in
  RTC.set_time t bus
  = (Ok (), replay [wr _REGISTER_YEAR 0x49;
                    wr _REGISTER_MONTH 0x02;
                    wr _REGISTER_DAY 0x28;
                    rd _REGISTER_CONTROL_1;
                    wr _REGISTER_HOUR 0x23;
                    wr _REGISTER_MINUTE 0x00;
                    wr _REGISTER_SECOND 0x00] bus)
  ∧ peek _REGISTER_YEAR (exec (RTC.set_time t) bus) = 0x49
  ∧ peek _REGISTER_MONTH (exec (RTC.set_time t) bus) = 0x02
  ∧ peek _REGISTER_DAY (exec (RTC.set_time t) bus) = 0x28
  ∧ peek _REGISTER_HOUR (exec (RTC.set_time t) bus) = 0x23
  ∧ peek _REGISTER_MINUTE (exec (RTC.set_time t) bus) = 0x00
  ∧ peek _REGISTER_SECOND (exec (RTC.set_time t) bus) = 0x00.
Proof.
  cbv zeta.
  set (t := [Py.Int 2019; Py.Str "FEB"; Py.Int 28; Py.Int 23]).
  assert (3 ≤ length t)%nat as Hlen by (simpl; lia).
  assert (Py.as_int (position t 0) = Some 2019 ∧ 1970 ≤ 2019 ≤ 2119) as Vy
    by (split; [reflexivity | lia]).
  assert (month_value (position t 1) 2) as Vmo
    by exact (month_name 1 "FEB" eq_refl).
  assert (Py.as_int (position t 2) = Some 28 ∧ 1 ≤ 28 ≤ 30) as Vd
    by (split; [reflexivity | lia]).
  assert (Py.as_int (position t 3) = Some 23 ∧ 0 ≤ 23 ≤ 23) as Vh
    by (split; [reflexivity | lia]).
  assert (Py.as_int (position t 4) = Some 0 ∧ 0 ≤ 0 ≤ 59) as V0
    by (split; [reflexivity | lia]).
  exact (set_time_writes t (mkI2C ∅ [104] []) 2019 2 28 23 0 0
           Hlen Vy Vmo Vd Vh V0 V0).
Defined.

(** What each getter returns, and [now] with them. *)
Lemma get_hour_run bus :
  RTC.get_hour bus
  = (Ok (decode_hour (mode12 bus) (peek _REGISTER_HOUR bus)),
     replay [rd _REGISTER_HOUR; rd _REGISTER_CONTROL_1] bus).
Proof.
  unfold RTC.get_hour, mbind, M_bind.
  rewrite read_register_run, get_bit_12_24_run, peek_rd, replay_app.
  unfold decode_hour, mode12.
  destruct (Z.testbit (peek _REGISTER_CONTROL_1 bus) 3); reflexivity.
Qed.

Lemma now_run bus :
  eval RTC.now bus
  = Ok [Py.Int (let b := peek _REGISTER_YEAR bus in
                10 * Z.shiftr (Z.land b 0xF0) 4 + Z.land b 0x0F + 1970);
        Py.Int (let b := peek _REGISTER_MONTH bus in
                10 * Z.shiftr (Z.land b 0x10) 4 + Z.land b 0x0F);
        Py.Int (let b := peek _REGISTER_DAY bus in
                10 * Z.shiftr (Z.land b 0x30) 4 + Z.land b 0x0F);
        Py.Int (decode_hour (mode12 bus) (peek _REGISTER_HOUR bus));
        Py.Int (let b := peek _REGISTER_MINUTE bus in
                10 * Z.shiftr (Z.land b 0x70) 4 + Z.land b 0x0F);
        Py.Int (let b := peek _REGISTER_SECOND bus in
                10 * Z.shiftr (Z.land b 0x70) 4 + Z.land b 0x0F);
        Py.Int 0; Py.Int 0].
Proof.
  unfold eval, RTC.now.
  unfold mbind at 1 2 3, M_bind.
  change (RTC.get_year bus) with
    (Ok (let b := peek _REGISTER_YEAR bus in
         10 * Z.shiftr (Z.land b 0xF0) 4 + Z.land b 0x0F + 1970),
     replay [rd _REGISTER_YEAR] bus).
  cbv beta iota.
  change (RTC.get_month (Py.Bool false) (replay [rd _REGISTER_YEAR] bus)) with
    (Ok (Py.Int (let b := peek _REGISTER_MONTH bus in
                 10 * Z.shiftr (Z.land b 0x10) 4 + Z.land b 0x0F)),
     replay [rd _REGISTER_YEAR; rd _REGISTER_MONTH] bus).
  cbv beta iota.
  change (RTC.get_day (replay [rd _REGISTER_YEAR; rd _REGISTER_MONTH] bus)) with
    (Ok (let b := peek _REGISTER_DAY bus in
         10 * Z.shiftr (Z.land b 0x30) 4 + Z.land b 0x0F),
     replay [rd _REGISTER_YEAR; rd _REGISTER_MONTH; rd _REGISTER_DAY] bus).
  cbv beta iota.
  unfold mbind at 1, M_bind. rewrite get_hour_run.
  reflexivity.
Qed.

(** C5. Whatever the bus holds, [set_time((2015, 10, 21, 16, 29, 0))]
    followed by [now()] returns [(2015, 10, 21, 16, 29, 0, 0, 0)]. *)
Theorem set_time_then_now (bus : I2C) :
  eval (RTC.set_time [Py.Int 2015; Py.Int 10; Py.Int 21;
                      Py.Int 16; Py.Int 29; Py.Int 0];;
        RTC.now) bus
  = Ok [Py.Int 2015; Py.Int 10; Py.Int 21;
        Py.Int 16; Py.Int 29; Py.Int 0; Py.Int 0; Py.Int 0].
Proof.
  unfold eval, mbind, M_bind.
  rewrite (set_time_run _ bus (Py.Int 2015) (Py.Int 10) (Py.Int 21)
             2015 10 21 16 29 0);
    try reflexivity; try (split; [reflexivity | lia]);
    [|apply month_number; [reflexivity | lia]].
  cbv beta iota. etrans; [exact (now_run _)|].
  unfold mode12. rewrite !peek_replay.
  cbn [last_write rd wr Z.eqb Pos.eqb andb _ADDRESS
       _REGISTER_CONTROL_1 _REGISTER_SECOND _REGISTER_MINUTE _REGISTER_HOUR
       _REGISTER_DAY _REGISTER_MONTH _REGISTER_YEAR].
  unfold hour_byte, mode12.
  destruct (Z.testbit (peek _REGISTER_CONTROL_1 bus) 3);
    vm_compute; reflexivity.
Qed.

(** ** Initialization *)

(** C7. When the scan of the bus does not list address 104, [init] raises
    the RuntimeError of a missing device and the scan is the only bus call
    made: nothing is read or written, every register keeps its value. *)
Theorem init_device_absent
    (datetime : option (list Py.val)) (switch_over vbat_interrupt : Py.val)
    (bus : I2C) :
  _ADDRESS ∉ devices bus →
  RTC.init datetime switch_over vbat_interrupt bus
  = (Raise (Py.RuntimeError "PCF8523 module is not detected in the I2C bus"),
     replay [OpScan] bus)
  ∧ log (exec (RTC.init datetime switch_over vbat_interrupt) bus)
    = log bus ++ [OpScan]
  ∧ mem (exec (RTC.init datetime switch_over vbat_interrupt) bus) = mem bus.
Proof.
  intros Habsent.
  assert (RTC.init datetime switch_over vbat_interrupt bus
          = (Raise (Py.RuntimeError
                      "PCF8523 module is not detected in the I2C bus"),
             replay [OpScan] bus)) as Hrun.
  { unfold RTC.init, mbind, M_bind, scan.
    now rewrite bool_decide_eq_false_2. }
  unfold exec. rewrite Hrun. repeat split.
Qed.

Lemma init_device_absent_witness :
  let bus := mkI2C ∅ [80; 119] [] in
  RTC.init (Some [Py.Int 2015; Py.Int 10; Py.Int 21]) (Py.Bool true)
    (Py.Bool false) bus
  = (Raise (Py.RuntimeError "PCF8523 module is not detected in the I2C bus"),
     replay [OpScan] bus)
  ∧ log (exec (RTC.init (Some [Py.Int 2015; Py.Int 10; Py.Int 21])
                 (Py.Bool true) (Py.Bool false)) bus)
    = log bus ++ [OpScan]
  ∧ mem (exec (RTC.init (Some [Py.Int 2015; Py.Int 10; Py.Int 21])
                 (Py.Bool true) (Py.Bool false)) bus) = mem bus.
Proof.
  cbv zeta. apply init_device_absent.
  cbn [devices]. unfold _ADDRESS. intros Hin.
  apply elem_of_cons in Hin as [Hin|Hin]; [discriminate Hin|].
  apply elem_of_cons in Hin as [Hin|Hin]; [discriminate Hin|].
  inversion Hin.
Defined.

(** ** The hour register in 12-hour mode *)

(** C8. With bit 3 of control register 1 set, [set_hour(h)] for [h] in
    0..23 writes the byte [(meridiem<<5)|(tens<<4)|units] of the
    specification ([hour12_byte]), and [get_hour] returns
    [12*meridiem + 10*tens + units] for the three fields of the hour byte:
    bit 5, bit 4 and the low four bits. *)
Theorem hour_in_12h_mode (h : Z) (bus : I2C) :
  mode12 bus = true →
  0 ≤ h ≤ 23 →
  RTC.set_hour (Py.Int h) bus
  = (Ok (), replay [rd _REGISTER_CONTROL_1;
                    wr _REGISTER_HOUR (hour12_byte h)] bus)
  ∧ peek _REGISTER_HOUR (exec (RTC.set_hour (Py.Int h)) bus) = hour12_byte h
  ∧ eval RTC.get_hour bus
    = Ok (let b := peek _REGISTER_HOUR bus in
          12 * Z.b2z (Z.testbit b 5) + 10 * Z.b2z (Z.testbit b 4)
            + b mod 16).
Proof.
  intros Hmode Hh.
  pose proof (set_hour_run (Py.Int h) h bus eq_refl ltac:(lia)) as Hrun.
  unfold hour_byte in Hrun. rewrite Hmode in Hrun.
  split; [exact Hrun|]. split.
  - unfold exec. rewrite Hrun. cbn [snd]. rewrite peek_replay.
    cbn [last_write rd wr Z.eqb Pos.eqb andb _ADDRESS _REGISTER_HOUR
         _REGISTER_CONTROL_1].
    apply unpack_byte_of, hour12_byte_range. lia.
  - unfold eval. rewrite get_hour_run, Hmode. cbn [fst decode_hour].
    do 2 f_equal; [f_equal|].
    + f_equal. change 0x20 with (Z.shiftl (Z.ones 1) 5).
      rewrite bit_field by lia. now rewrite Z.testbit_spec' by lia.
    + f_equal. change 0x10 with (Z.shiftl (Z.ones 1) 4).
      rewrite bit_field by lia. now rewrite Z.testbit_spec' by lia.
    + apply low_nibble.
Qed.

Lemma hour_in_12h_mode_witness :
  let bus := mkI2C {[ (_ADDRESS, _REGISTER_CONTROL_1) := x08;
                      (_ADDRESS, _REGISTER_HOUR) := x31 ]} [104] [] in
  mode12 bus = true ∧
  RTC.set_hour (Py.Int 23) bus
  = (Ok (), replay [rd _REGISTER_CONTROL_1;
                    wr _REGISTER_HOUR (hour12_byte 23)] bus)
  ∧ peek _REGISTER_HOUR (exec (RTC.set_hour (Py.Int 23)) bus)
    = hour12_byte 23
  ∧ eval RTC.get_hour bus
    = Ok (let b := peek _REGISTER_HOUR bus in
          12 * Z.b2z (Z.testbit b 5) + 10 * Z.b2z (Z.testbit b 4)
            + b mod 16).
Proof.
  cbv zeta.
  assert (Hm : mode12 (mkI2C {[ (_ADDRESS, _REGISTER_CONTROL_1) := x08;
                                (_ADDRESS, _REGISTER_HOUR) := x31 ]}
                         [104] []) = true)
    by (vm_compute; reflexivity).
  split; [exact Hm|].
  apply (hour_in_12h_mode 23 _ Hm). lia.
Defined.

(** ** Name lookups *)

Lemma getitem_elem_of {A} (l : list A) (i : Z) :
  0 ≤ i < Z.of_nat (length l) → ∃ x, Py.getitem l i = Some x ∧ x ∈ l.
Proof.
  intros Hi.
  assert (Z.to_nat i < length l)%nat as Hlt by lia.
  destruct (lookup_lt_is_Some_2 l (Z.to_nat i) Hlt) as [x Hx].
  exists x. split.
  - rewrite <- (Z2Nat.id i) by lia. now apply getitem_lookup.
  - eapply list_elem_of_lookup_2. eassumption.
Qed.

(** C9, as the code has it.  Whatever byte the weekday register holds,
    [get_weekday()] returns its low three bits, an integer from 0 to 7.
    When that integer is at most 6, [get_weekday(as_str=True)] returns the
    name at that position of [WEEKDAY_STR]; when it is 7, the index is
    outside the seven-name table and the call raises IndexError. *)
Theorem get_weekday_masked (bus : I2C) (wd : Z) :
  wd = peek _REGISTER_WEEKDAY bus mod 8 →
  eval (RTC.get_weekday (Py.Bool false)) bus = Ok (Py.Int wd)
  ∧ 0 ≤ wd ≤ 7
  ∧ (wd ≤ 6 →
     ∃ name, eval (RTC.get_weekday (Py.Bool true)) bus = Ok (Py.Str name)
             ∧ WEEKDAY_STR !! Z.to_nat wd = Some name)
  ∧ (wd = 7 →
     eval (RTC.get_weekday (Py.Bool true)) bus
     = Raise (Py.IndexError "list index out of range")).
Proof.
  intros ->.
  assert (Z.land (peek _REGISTER_WEEKDAY bus) 0x07
          = peek _REGISTER_WEEKDAY bus mod 8) as Hwd
    by (change 0x07 with (Z.ones 3); now rewrite Z.land_ones).
  pose proof (Z.mod_pos_bound (peek _REGISTER_WEEKDAY bus) 8 ltac:(lia)) as Hr.
  unfold eval, RTC.get_weekday, mbind, M_bind.
  rewrite read_register_run, Hwd. cbn [Py.is_True].
  split; [reflexivity|]. split; [lia|]. split.
  - intros Hle.
    destruct (getitem_elem_of WEEKDAY_STR (peek _REGISTER_WEEKDAY bus mod 8))
      as (name & Hname & _); [simpl; lia|].
    exists name. rewrite Hname. split; [reflexivity|].
    unfold Py.getitem in Hname.
    destruct (Z.leb_spec 0 (peek _REGISTER_WEEKDAY bus mod 8)); [|lia].
    destruct (Z.ltb_spec (peek _REGISTER_WEEKDAY bus mod 8)
                (Z.of_nat (length WEEKDAY_STR))); [|simpl in *; lia].
    exact Hname.
  - intros ->. reflexivity.
Qed.

Lemma get_weekday_masked_witness :
  let bus := mkI2C {[ (_ADDRESS, _REGISTER_WEEKDAY) := xfb ]} [104] [] in
  eval (RTC.get_weekday (Py.Bool false)) bus = Ok (Py.Int 3)
  ∧ eval (RTC.get_weekday (Py.Bool true)) bus = Ok (Py.Str "WED").
Proof.
  cbv zeta.
  destruct (get_weekday_masked
              (mkI2C {[ (_ADDRESS, _REGISTER_WEEKDAY) := xfb ]} [104] []) 3)
    as (Hint & _ & Hname & _); [vm_compute; reflexivity|].
  split; [exact Hint|].
  destruct Hname as (name & Hrun & Hlookup); [lia|].
  rewrite Hrun. vm_compute in Hlookup. injection Hlookup as <-. reflexivity.
Defined.

(** C9, as stated, fails: with the byte 0x07 in the weekday register
    [get_weekday()] returns 7, which is not in 0..6, and
    [get_weekday(as_str=True)] raises IndexError. *)
Lemma get_weekday_total_counterexample :
  let bus := mkI2C {[ (_ADDRESS, _REGISTER_WEEKDAY) := x07 ]} [104] [] in
  eval (RTC.get_weekday (Py.Bool false)) bus = Ok (Py.Int 7)
  ∧ eval (RTC.get_weekday (Py.Bool true)) bus
    = Raise (Py.IndexError "list index out of range")
  ∧ ¬ (∃ wd, eval (RTC.get_weekday (Py.Bool false)) bus = Ok (Py.Int wd)
             ∧ 0 ≤ wd ≤ 6)
  ∧ ¬ (∃ name, eval (RTC.get_weekday (Py.Bool true)) bus
               = Ok (Py.Str name)).
Proof.
  cbv zeta. split; [vm_compute; reflexivity|].
  split; [vm_compute; reflexivity|]. split.
  - intros (wd & Hrun & Hwd). vm_compute in Hrun.
    injection Hrun as <-. lia.
  - intros (name & Hrun). vm_compute in Hrun. discriminate Hrun.
Qed.

(** C10. When the month register decodes to month 0, as the byte 0x00
    does, [get_month(as_str=True)] raises nothing: index -1 selects the
    last entry of [MONTH_STR] and the call returns "DEC". *)
Theorem get_month_name_of_month_0 (bus : I2C) :
  eval (RTC.get_month (Py.Bool false)) bus = Ok (Py.Int 0) →
  eval (RTC.get_month (Py.Bool true)) bus = Ok (Py.Str "DEC").
Proof.
  unfold eval, RTC.get_month, mbind, M_bind.
  rewrite read_register_run. cbn [Py.is_True]. unfold mret, M_ret. cbn [fst].
  intros [= ->]. reflexivity.
Qed.

Lemma get_month_name_of_month_0_witness :
  let bus := mkI2C {[ (_ADDRESS, _REGISTER_MONTH) := x00 ]} [104] [] in
  eval (RTC.get_month (Py.Bool false)) bus = Ok (Py.Int 0) ∧
  eval (RTC.get_month (Py.Bool true)) bus = Ok (Py.Str "DEC").
Proof.
  cbv zeta.
  assert (H0 : eval (RTC.get_month (Py.Bool false))
                 (mkI2C {[ (_ADDRESS, _REGISTER_MONTH) := x00 ]} [104] [])
               = Ok (Py.Int 0)) by (vm_compute; reflexivity).
  split; [exact H0|].
  exact (get_month_name_of_month_0 _ H0).
Defined.

(** * Further properties of the driver *)

(** ** Acceptance by the setters *)

Lemma peek_wr_ne reg reg' v bus :
  reg ≠ reg' → peek reg (replay [wr reg' v] bus) = peek reg bus.
Proof.
  intros Hne. rewrite (peek_replay_snoc reg [] (wr reg' v)). unfold wr.
  rewrite decide_False by congruence. reflexivity.
Qed.

Lemma setter_accepts f v z bus :
  field_value f v z →
  setter f v bus = (Ok (), replay (setter_trace f bus z) bus).
Proof.
  destruct f; cbn [field_value setter setter_trace register domain].
  - intros [Hv Hz]. apply set_second_run; [exact Hv | lia].
  - intros [Hv Hz]. apply set_minute_run; [exact Hv | lia].
  - intros [Hv Hz]. apply set_hour_run; [exact Hv | lia].
  - intros [Hv Hz]. apply set_day_run; [exact Hv | lia].
  - apply set_weekday_run.
  - apply set_month_run.
  - intros [Hv Hz]. apply set_year_run; [exact Hv | lia].
Qed.

Lemma number_or_outside v lo hi :
  (∃ z, Py.as_int v = Some z ∧ lo ≤ z ≤ hi) ∨ outside lo hi v.
Proof.
  destruct (Py.as_int v) as [z|] eqn:Hv.
  - destruct (decide (lo ≤ z ≤ hi)) as [Hz|Hz].
    + left. eauto.
    + right. intros z' Hz'. rewrite Hv in Hz'. now injection Hz' as <-.
  - right. intros z' Hz'. rewrite Hv in Hz'. discriminate.
Qed.

(** Every value is either one the setter accepts or an invalid one. *)
Lemma valid_or_invalid f v :
  (∃ z, field_value f v z) ∨ invalid_field f v.
Proof.
  destruct f; cbn [field_value invalid_field domain];
    try (destruct v; apply number_or_outside).
  - destruct v as [|b|n|name]; cbn [invalid_field].
    1-3: match goal with
         | |- _ ∨ outside _ _ ?v =>
             destruct (number_or_outside v 0 6) as [(z & Hv & Hz)|Ho];
             [left; exists z; apply weekday_number; eassumption
             | right; exact Ho]
         end.
    destruct (decide (name ∈ WEEKDAY_STR)) as [Hin|Hout]; [|now right].
    left. apply list_elem_of_lookup_1 in Hin as [i Hi].
    exists (Z.of_nat i). now apply weekday_name.
  - destruct v as [|b|n|name]; cbn [invalid_field].
    1-3: match goal with
         | |- _ ∨ outside _ _ ?v =>
             destruct (number_or_outside v 1 12) as [(z & Hv & Hz)|Ho];
             [left; exists z; apply month_number; eassumption
             | right; exact Ho]
         end.
    destruct (decide (name ∈ MONTH_STR)) as [Hin|Hout]; [|now right].
    left. apply list_elem_of_lookup_1 in Hin as [i Hi].
    exists (Z.of_nat i + 1). now apply month_name.
Qed.

Lemma weekday_value_range v z : weekday_value v z → 0 ≤ z ≤ 6.
Proof.
  intros [v' z' _ Hz | i name Hi]; [exact Hz|].
  apply lookup_lt_Some in Hi. simpl in Hi. lia.
Qed.

Lemma month_value_range v z : month_value v z → 1 ≤ z ≤ 12.
Proof.
  intros [v' z' _ Hz | i name Hi]; [exact Hz|].
  apply lookup_lt_Some in Hi. simpl in Hi. lia.
Qed.

Lemma field_value_domain f v z : field_value f v z → domain f z.
Proof.
  destruct f; cbn [field_value domain]; try (intros [_ Hz]; exact Hz).
  - apply weekday_value_range.
  - apply month_value_range.
Qed.

(** X1. Among the arguments that are [None], a boolean, an integer or a
    string, a setter succeeds exactly on the values of its field: a number
    of the domain ([bool] counting as 0 or 1) or, for weekday and month, a
    name of the table.  On every other argument of these four kinds it
    raises. *)
Theorem setter_succeeds_iff (f : field) (v : Py.val) (bus : I2C) :
  eval (setter f v) bus = Ok () ↔ ∃ z, field_value f v z.
Proof.
  split.
  - intros Hok. destruct (valid_or_invalid f v) as [Hval|Hinv]; [exact Hval|].
    destruct (setter_rejects f v bus Hinv) as [msg Hmsg].
    unfold eval in Hok. rewrite Hmsg in Hok. discriminate Hok.
  - intros [z Hz]. unfold eval. now rewrite (setter_accepts f v z bus Hz).
Qed.

(** X2. A setter changes no register but its own, whatever value it is
    given. *)
Theorem setter_frame (f : field) (v : Py.val) (bus : I2C) (reg : Z) :
  reg ≠ register f →
  peek reg (exec (setter f v) bus) = peek reg bus.
Proof.
  intros Hreg. unfold exec.
  destruct (valid_or_invalid f v) as [[z Hz]|Hinv].
  - rewrite (setter_accepts f v z bus Hz). cbn [snd].
    destruct f; cbn [setter_trace register] in *;
      try (now apply peek_wr_ne).
    change (replay [rd _REGISTER_CONTROL_1;
                    wr _REGISTER_HOUR (hour_byte bus z)] bus)
      with (replay [wr _REGISTER_HOUR (hour_byte bus z)]
              (replay [rd _REGISTER_CONTROL_1] bus)).
    now rewrite peek_wr_ne, peek_rd.
  - destruct (setter_rejects f v bus Hinv) as [msg ->]. reflexivity.
Qed.

Lemma setter_frame_witness :
  let bus := mkI2C {[ (_ADDRESS, _REGISTER_MINUTE) := x59 ]} [104] [] in
  peek _REGISTER_MINUTE (exec (setter Hour (Py.Int 7)) bus)
  = peek _REGISTER_MINUTE bus.
Proof.
  cbv zeta. apply (setter_frame Hour). discriminate.
Defined.

(** X3. The byte a BCD setter leaves in its register has the tens digit
    of the value in the high four bits and the units digit in the low
    four: [16 * tens + units].  The year register holds the digits of
    [year - 1970]; the hour register is BCD in 24-hour mode. *)
Theorem setter_writes_bcd (f : field) (v : Py.val) (z : Z) (bus : I2C) :
  f ≠ Weekday →
  (f = Hour → mode12 bus = false) →
  field_value f v z →
  peek (register f) (exec (setter f v) bus)
  = 16 * (bcd_number f z / 10) + bcd_number f z mod 10.
Proof.
  intros Hf Hmode Hz. unfold exec.
  rewrite (setter_accepts f v z bus Hz). cbn [snd].
  pose proof (field_value_domain f v z Hz) as Hd.
  assert (∀ u, 0 ≤ u < 160 →
               RTC.pack_bcd u = 16 * (u / 10) + u mod 10) as Hpack.
  { intros u Hu. unfold RTC.pack_bcd, Py.divmod.
    apply lor_shiftl4.
    pose proof (Z.mod_pos_bound u 10 ltac:(lia)). lia. }
  destruct f; cbn [setter_trace register bcd_number domain] in *;
    try contradiction;
    try (rewrite peek_wr_eq by (apply pack_bcd_range; lia);
         apply Hpack; lia).
  change (replay [rd _REGISTER_CONTROL_1;
                  wr _REGISTER_HOUR (hour_byte bus z)] bus)
    with (replay [wr _REGISTER_HOUR (hour_byte bus z)]
            (replay [rd _REGISTER_CONTROL_1] bus)).
  unfold hour_byte. rewrite (Hmode eq_refl).
  rewrite peek_wr_eq by (apply pack_bcd_range; lia).
  apply Hpack. lia.
Qed.

Lemma setter_writes_bcd_witness :
  let bus := mkI2C ∅ [104] [] in
  peek (register Year) (exec (setter Year (Py.Int 2019)) bus)
  = 16 * (bcd_number Year 2019 / 10) + bcd_number Year 2019 mod 10.
Proof.
  cbv zeta. apply (setter_writes_bcd Year (Py.Int 2019) 2019).
  - discriminate.
  - discriminate.
  - split; [reflexivity | simpl; lia].
Defined.

(** ** The getters *)

(** X4. Whatever its register holds, a getter called without [as_str]
    returns a number and raises nothing, the number lies between
    [getter_min] and [getter_max] of the field, and no register is
    written.  The bounds are those of the bit fields extracted, not of the
    calendar: the getters do not check that the byte is a valid BCD
    value. *)
Theorem getter_total (f : field) (bus : I2C) :
  ∃ v, eval (getter f) bus = Ok (Py.Int v)
       ∧ getter_min f ≤ v ≤ getter_max f
       ∧ mem (exec (getter f) bus) = mem bus.
Proof.
  unfold eval, exec.
  destruct f;
    cbn [getter getter_min getter_max]; unfold mbind, M_bind;
    [unfold RTC.get_second | unfold RTC.get_minute | rewrite get_hour_run
    | unfold RTC.get_day | unfold RTC.get_weekday | unfold RTC.get_month
    | unfold RTC.get_year];
    unfold mbind, M_bind; rewrite ?read_register_run;
    cbn [Py.is_True]; unfold mret, M_ret; cbn [fst snd];
    (eexists; split; [reflexivity|]; split; [|reflexivity]).
  3: { unfold decode_hour.
       generalize (peek_range _REGISTER_HOUR bus).
       generalize (peek _REGISTER_HOUR bus).
       destruct (mode12 bus);
         apply (forall_range _ 0 256); vm_compute; reflexivity. }
  all: match goal with
       | |- context [peek ?r ?b] =>
           generalize (peek_range r b); generalize (peek r b)
       end;
       apply (forall_range _ 0 256); vm_compute; reflexivity.
Qed.

(** X5. The upper bounds are reached: with all bits of its register set,
    each getter returns [getter_max], for instance 85 seconds or the year
    2135. *)
Theorem getter_max_reached (f : field) :
  eval (getter f) (mkI2C {[ (_ADDRESS, register f) := xff ]} [_ADDRESS] [])
  = Ok (Py.Int (getter_max f)).
Proof. destruct f; vm_compute; reflexivity. Qed.

Lemma now_trace bus :
  RTC.now bus
  = (Ok [Py.Int (let b := peek _REGISTER_YEAR bus in
                 10 * Z.shiftr (Z.land b 0xF0) 4 + Z.land b 0x0F + 1970);
         Py.Int (let b := peek _REGISTER_MONTH bus in
                 10 * Z.shiftr (Z.land b 0x10) 4 + Z.land b 0x0F);
         Py.Int (let b := peek _REGISTER_DAY bus in
                 10 * Z.shiftr (Z.land b 0x30) 4 + Z.land b 0x0F);
         Py.Int (decode_hour (mode12 bus) (peek _REGISTER_HOUR bus));
         Py.Int (let b := peek _REGISTER_MINUTE bus in
                 10 * Z.shiftr (Z.land b 0x70) 4 + Z.land b 0x0F);
         Py.Int (let b := peek _REGISTER_SECOND bus in
                 10 * Z.shiftr (Z.land b 0x70) 4 + Z.land b 0x0F);
         Py.Int 0; Py.Int 0],
     replay [rd _REGISTER_YEAR; rd _REGISTER_MONTH; rd _REGISTER_DAY;
             rd _REGISTER_HOUR; rd _REGISTER_CONTROL_1;
             rd _REGISTER_MINUTE; rd _REGISTER_SECOND] bus).
Proof.
  unfold RTC.now.
  unfold mbind at 1 2 3, M_bind.
  change (RTC.get_year bus) with
    (Ok (let b := peek _REGISTER_YEAR bus in
         10 * Z.shiftr (Z.land b 0xF0) 4 + Z.land b 0x0F + 1970),
     replay [rd _REGISTER_YEAR] bus).
  cbv beta iota.
  change (RTC.get_month (Py.Bool false) (replay [rd _REGISTER_YEAR] bus)) with
    (Ok (Py.Int (let b := peek _REGISTER_MONTH bus in
                 10 * Z.shiftr (Z.land b 0x10) 4 + Z.land b 0x0F)),
     replay [rd _REGISTER_YEAR; rd _REGISTER_MONTH] bus).
  cbv beta iota.
  change (RTC.get_day (replay [rd _REGISTER_YEAR; rd _REGISTER_MONTH] bus)) with
    (Ok (let b := peek _REGISTER_DAY bus in
         10 * Z.shiftr (Z.land b 0x30) 4 + Z.land b 0x0F),
     replay [rd _REGISTER_YEAR; rd _REGISTER_MONTH; rd _REGISTER_DAY] bus).
  cbv beta iota.
  unfold mbind at 1, M_bind. rewrite get_hour_run.
  reflexivity.
Qed.

(** X6. [now()] never raises and writes nothing: it makes seven reads
    (the six field registers and the mode bit) and returns what the six
    getters return on the same bus, in the order year, month, day, hour,
    minute, second, followed by two zeros. *)
Theorem now_is_the_getters (bus : I2C) :
  ∃ year month day hour minute second,
    eval (getter Year) bus = Ok year
    ∧ eval (getter Month) bus = Ok month
    ∧ eval (getter Day) bus = Ok day
    ∧ eval (getter Hour) bus = Ok hour
    ∧ eval (getter Minute) bus = Ok minute
    ∧ eval (getter Second) bus = Ok second
    ∧ eval RTC.now bus
      = Ok [year; month; day; hour; minute; second; Py.Int 0; Py.Int 0]
    ∧ exec RTC.now bus
      = replay [rd _REGISTER_YEAR; rd _REGISTER_MONTH; rd _REGISTER_DAY;
                rd _REGISTER_HOUR; rd _REGISTER_CONTROL_1;
                rd _REGISTER_MINUTE; rd _REGISTER_SECOND] bus
    ∧ mem (exec RTC.now bus) = mem bus.
Proof.
  unfold eval, exec. rewrite now_trace. cbn [fst snd getter].
  unfold mbind, M_bind. rewrite get_hour_run.
  do 6 eexists. repeat split.
Qed.

(** ** The control registers *)

Lemma enable_24_byte_range old :
  0 ≤ old < 256 → 0 ≤ enable_24_byte old < 256.
Proof. revert old. apply (forall_range _ 0 256). vm_compute. reflexivity. Qed.

Lemma switch_over_byte_range b old :
  0 ≤ old < 256 → 0 ≤ switch_over_byte b old < 256.
Proof.
  revert old. destruct b; apply (forall_range _ 0 256); vm_compute; reflexivity.
Qed.

Lemma vbat_byte_range b old : 0 ≤ old < 256 → 0 ≤ vbat_byte b old < 256.
Proof.
  revert old. destruct b; apply (forall_range _ 0 256); vm_compute; reflexivity.
Qed.

Lemma enable_24_mode_run bus :
  RTC.__enable_24_mode bus
  = (Ok (), replay [rd _REGISTER_CONTROL_1;
                    wr _REGISTER_CONTROL_1
                      (enable_24_byte (peek _REGISTER_CONTROL_1 bus))] bus).
Proof.
  unfold RTC.__enable_24_mode, mbind, M_bind.
  rewrite read_register_run.
  fold (enable_24_byte (peek _REGISTER_CONTROL_1 bus)).
  rewrite write_register_run by apply enable_24_byte_range, peek_range.
  now rewrite replay_app.
Qed.

Lemma battery_switch_over_run (b : bool) bus :
  RTC.battery_switch_over (Py.Bool b) bus
  = (Ok (), replay [rd _REGISTER_CONTROL_3;
                    wr _REGISTER_CONTROL_3
                      (switch_over_byte b (peek _REGISTER_CONTROL_3 bus))]
              bus).
Proof.
  unfold RTC.battery_switch_over, mbind, M_bind.
  rewrite read_register_run.
  pose proof (switch_over_byte_range b _ (peek_range _REGISTER_CONTROL_3 bus))
    as Hr.
  destruct b; cbn [Py.is_True Py.is_False switch_over_byte] in *;
    unfold mret, M_ret; rewrite write_register_run by exact Hr;
    now rewrite replay_app.
Qed.

Lemma vbat_interrupt_run (b : bool) bus :
  RTC.vbat_interrupt (Py.Bool b) bus
  = (Ok (), replay [rd _REGISTER_CONTROL_3;
                    wr _REGISTER_CONTROL_3
                      (vbat_byte b (peek _REGISTER_CONTROL_3 bus))] bus).
Proof.
  unfold RTC.vbat_interrupt, mbind, M_bind.
  rewrite read_register_run.
  pose proof (vbat_byte_range b _ (peek_range _REGISTER_CONTROL_3 bus)) as Hr.
  destruct b; cbn [Py.is_True Py.is_False vbat_byte] in *;
    unfold mret, M_ret; rewrite write_register_run by exact Hr;
    now rewrite replay_app.
Qed.

Lemma battery_low_run bus :
  RTC.battery_low bus
  = (Ok (Z.testbit (peek _REGISTER_CONTROL_3 bus) 2),
     replay [rd _REGISTER_CONTROL_3] bus).
Proof.
  unfold RTC.battery_low, mbind, M_bind.
  rewrite read_register_run. unfold mret, M_ret. do 2 f_equal.
  change 4 with (Z.shiftl (Z.ones 1) 2).
  rewrite bit_field by lia.
  change (2 ^ 1) with 2. rewrite <- Z.testbit_spec' by lia.
  now destruct (Z.testbit (peek _REGISTER_CONTROL_3 bus) 2).
Qed.

(** The cases of a bit position of a byte. *)
Ltac bit_cases i :=
  let H := fresh in
  assert (i = 0 ∨ i = 1 ∨ i = 2 ∨ i = 3 ∨ i = 4 ∨ i = 5 ∨ i = 6 ∨ i = 7)
    as H by lia;
  repeat (destruct H as [->|H]); [..|subst i].

(** X7. For either boolean, [vbat_interrupt] reads control register 3
    once and writes it once; bit 0 of the byte written is the flag and
    bits 1 to 7 are those read. *)
Theorem vbat_interrupt_read_modify_write (b : bool) (bus : I2C) :
  ∃ new,
    RTC.vbat_interrupt (Py.Bool b) bus
    = (Ok (), replay [rd _REGISTER_CONTROL_3;
                      wr _REGISTER_CONTROL_3 new] bus)
    ∧ peek _REGISTER_CONTROL_3 (exec (RTC.vbat_interrupt (Py.Bool b)) bus)
      = new
    ∧ Z.testbit new 0 = b
    ∧ (∀ i, 1 ≤ i ≤ 7 →
         Z.testbit new i = Z.testbit (peek _REGISTER_CONTROL_3 bus) i).
Proof.
  exists (vbat_byte b (peek _REGISTER_CONTROL_3 bus)).
  split; [apply vbat_interrupt_run|]. split; [|split].
  - unfold exec. rewrite vbat_interrupt_run. cbn [snd].
    rewrite peek_replay.
    cbn [last_write rd wr Z.eqb Pos.eqb andb _ADDRESS _REGISTER_CONTROL_3].
    apply unpack_byte_of, vbat_byte_range, peek_range.
  - destruct b; cbn [vbat_byte]; mask_bits; reflexivity.
  - intros i Hi. bit_cases i; try lia;
      destruct b; cbn [vbat_byte]; mask_bits; reflexivity.
Qed.

(** X8. [battery_low] returns bit 2 of control register 3 and nothing
    else of it: it makes one read and no write. *)
Theorem battery_low_is_bit_2 (bus : I2C) :
  eval RTC.battery_low bus = Ok (Z.testbit (peek _REGISTER_CONTROL_3 bus) 2)
  ∧ exec RTC.battery_low bus = replay [rd _REGISTER_CONTROL_3] bus
  ∧ mem (exec RTC.battery_low bus) = mem bus.
Proof.
  unfold eval, exec. rewrite battery_low_run. repeat split.
Qed.

(** X9. Neither [battery_switch_over] nor [vbat_interrupt] changes what
    [battery_low] answers: the battery-low flag survives both. *)
Theorem control_setters_keep_battery_low (b : bool) (bus : I2C) :
  eval (RTC.battery_switch_over (Py.Bool b);; RTC.battery_low) bus
  = eval RTC.battery_low bus
  ∧ eval (RTC.vbat_interrupt (Py.Bool b);; RTC.battery_low) bus
    = eval RTC.battery_low bus.
Proof.
  unfold eval, mbind, M_bind.
  rewrite battery_switch_over_run, vbat_interrupt_run, !battery_low_run.
  cbn [fst]. rewrite !peek_replay.
  cbn [last_write rd wr Z.eqb Pos.eqb andb _ADDRESS _REGISTER_CONTROL_3].
  rewrite !unpack_byte_of
    by (first [apply switch_over_byte_range | apply vbat_byte_range];
        apply peek_range).
  split; f_equal; destruct b;
    cbn [switch_over_byte vbat_byte]; mask_bits; reflexivity.
Qed.

(** X10. [__enable_24_mode] clears bit 3 of control register 1, so that
    the clock is in 24-hour mode afterwards, keeps the other seven bits of
    that register and leaves every other register alone. *)
Theorem enable_24_mode_clears_bit_3 (bus : I2C) :
  eval RTC.__enable_24_mode bus = Ok ()
  ∧ mode12 (exec RTC.__enable_24_mode bus) = false
  ∧ (∀ i, 0 ≤ i ≤ 7 → i ≠ 3 →
       Z.testbit (peek _REGISTER_CONTROL_1 (exec RTC.__enable_24_mode bus)) i
       = Z.testbit (peek _REGISTER_CONTROL_1 bus) i)
  ∧ (∀ reg, reg ≠ _REGISTER_CONTROL_1 →
       peek reg (exec RTC.__enable_24_mode bus) = peek reg bus).
Proof.
  unfold eval, exec, mode12. rewrite enable_24_mode_run. cbn [fst snd].
  split; [reflexivity|].
  assert (peek _REGISTER_CONTROL_1
            (replay [rd _REGISTER_CONTROL_1;
                     wr _REGISTER_CONTROL_1
                       (enable_24_byte (peek _REGISTER_CONTROL_1 bus))] bus)
          = enable_24_byte (peek _REGISTER_CONTROL_1 bus)) as ->.
  { rewrite peek_replay.
    cbn [last_write rd wr Z.eqb Pos.eqb andb _ADDRESS _REGISTER_CONTROL_1].
    apply unpack_byte_of, enable_24_byte_range, peek_range. }
  unfold enable_24_byte. split; [|split].
  - mask_bits. reflexivity.
  - intros i Hi Hne. bit_cases i; try lia; mask_bits; reflexivity.
  - intros reg Hreg.
    change (replay [rd _REGISTER_CONTROL_1;
                    wr _REGISTER_CONTROL_1
                      (Z.land (peek _REGISTER_CONTROL_1 bus) 247)] bus)
      with (replay [wr _REGISTER_CONTROL_1
                      (Z.land (peek _REGISTER_CONTROL_1 bus) 247)]
              (replay [rd _REGISTER_CONTROL_1] bus)).
    now rewrite peek_wr_ne, peek_rd.
Qed.

(** ** Initialization with the device present *)

(** The bits of a byte that went through several masks. *)
Ltac nested_mask_bits :=
  repeat first [rewrite Z.lor_spec | rewrite Z.land_spec]; mask_bits.

Lemma init_run datetime (so vb : bool) bus :
  _ADDRESS ∈ devices bus →
  RTC.init datetime (Py.Bool so) (Py.Bool vb) bus
  = match datetime with
    | Some t => RTC.set_time t (replay (init_trace so vb bus) bus)
    | None => (Ok (), replay (init_trace so vb bus) bus)
    end.
Proof.
  intros Hdev. unfold RTC.init, mbind, M_bind, scan.
  rewrite bool_decide_eq_true_2 by exact Hdev. cbn [negb].
  change (record OpScan bus) with (replay [OpScan] bus).
  rewrite enable_24_mode_run, battery_switch_over_run, vbat_interrupt_run.
  rewrite !replay_app. cbn [app].
  rewrite !peek_replay.
  cbn [last_write rd wr Z.eqb Pos.eqb andb _ADDRESS _REGISTER_CONTROL_1
       _REGISTER_CONTROL_3].
  rewrite unpack_byte_of by apply switch_over_byte_range, peek_range.
  destruct datetime; reflexivity.
Qed.

Lemma peek_init_trace so vb bus reg :
  peek reg (replay (init_trace so vb bus) bus)
  = if reg =? _REGISTER_CONTROL_3
    then vbat_byte vb (switch_over_byte so (peek _REGISTER_CONTROL_3 bus))
    else if reg =? _REGISTER_CONTROL_1
    then enable_24_byte (peek _REGISTER_CONTROL_1 bus)
    else peek reg bus.
Proof.
  rewrite peek_replay. unfold init_trace.
  cbn [last_write rd wr]. rewrite !Z.eqb_refl. cbn [andb].
  rewrite (Z.eqb_sym _REGISTER_CONTROL_3 reg),
    (Z.eqb_sym _REGISTER_CONTROL_1 reg).
  destruct (Z.eqb_spec reg _REGISTER_CONTROL_3) as [->|H3].
  - apply unpack_byte_of, vbat_byte_range, switch_over_byte_range, peek_range.
  - destruct (Z.eqb_spec reg _REGISTER_CONTROL_1) as [->|H1]; [|reflexivity].
    apply unpack_byte_of, enable_24_byte_range, peek_range.
Qed.

(** X11. With the device on the bus, boolean flags and no datetime,
    [init] succeeds after exactly seven bus calls (the scan, then a read
    and a write of control register 1 and two of each of control
    register 3) and leaves the clock in 24-hour mode.  In control
    register 3 bit 0 is the interrupt flag given, bit 3 is clear, bits 5
    to 7 are clear when switch-over is on and set when it is off, and bits
    1, 2 and 4 are as before.  No other register but control register 1
    changes. *)
Theorem init_without_datetime (so vb : bool) (bus : I2C) :
  _ADDRESS ∈ devices bus →
  let bus' := exec (RTC.init None (Py.Bool so) (Py.Bool vb)) bus in
  let c3 := peek _REGISTER_CONTROL_3 bus' in
  eval (RTC.init None (Py.Bool so) (Py.Bool vb)) bus = Ok ()
  ∧ length (log bus') = (length (log bus) + 7)%nat
  ∧ mode12 bus' = false
  ∧ Z.testbit c3 0 = vb
  ∧ Z.testbit c3 3 = false
  ∧ (∀ i, 5 ≤ i ≤ 7 → Z.testbit c3 i = negb so)
  ∧ (∀ i, i ∈ [1; 2; 4] →
       Z.testbit c3 i = Z.testbit (peek _REGISTER_CONTROL_3 bus) i)
  ∧ (∀ reg, reg ≠ _REGISTER_CONTROL_1 → reg ≠ _REGISTER_CONTROL_3 →
       peek reg bus' = peek reg bus).
Proof.
  intros Hdev. cbv zeta. unfold eval, exec, mode12.
  rewrite (init_run None so vb bus Hdev). cbn [fst snd].
  rewrite !peek_init_trace. cbn [Z.eqb Pos.eqb _REGISTER_CONTROL_1
                                 _REGISTER_CONTROL_3].
  split; [reflexivity|]. split.
  { unfold init_trace, replay. cbn [foldl apply_op record rd wr log].
    rewrite !length_app. cbn [length]. lia. }
  split; [unfold enable_24_byte; nested_mask_bits; reflexivity|].
  split; [destruct so, vb; cbn [vbat_byte switch_over_byte];
          nested_mask_bits; reflexivity|].
  split; [destruct so, vb; cbn [vbat_byte switch_over_byte];
          nested_mask_bits; reflexivity|].
  split; [|split].
  - intros i Hi.
    assert (i = 5 ∨ i = 6 ∨ i = 7) as [-> | [-> | ->]] by lia;
      destruct so, vb; cbn [vbat_byte switch_over_byte];
      nested_mask_bits; reflexivity.
  - intros i Hi.
    apply elem_of_cons in Hi as [-> | Hi];
      [|apply elem_of_cons in Hi as [-> | Hi];
        [|apply list_elem_of_singleton in Hi as ->]];
      destruct so, vb; cbn [vbat_byte switch_over_byte];
      nested_mask_bits; reflexivity.
  - intros reg H1 H3. rewrite peek_init_trace.
    destruct (Z.eqb_spec reg _REGISTER_CONTROL_3); [contradiction|].
    destruct (Z.eqb_spec reg _REGISTER_CONTROL_1); [contradiction|].
    reflexivity.
Qed.

Lemma init_without_datetime_witness :
  let bus := mkI2C {[ (_ADDRESS, _REGISTER_CONTROL_1) := x08;
                      (_ADDRESS, _REGISTER_CONTROL_3) := xec ]}
               [_ADDRESS] [] in
  eval (RTC.init None (Py.Bool true) (Py.Bool false)) bus = Ok ()
  ∧ mode12 (exec (RTC.init None (Py.Bool true) (Py.Bool false)) bus) = false.
Proof.
  cbv zeta.
  destruct (init_without_datetime true false
              (mkI2C {[ (_ADDRESS, _REGISTER_CONTROL_1) := x08;
                        (_ADDRESS, _REGISTER_CONTROL_3) := xec ]}
                 [_ADDRESS] []))
    as (Hok & _ & Hmode & _).
  - cbn [devices]. apply list_elem_of_singleton. reflexivity.
  - split; [exact Hok | exact Hmode].
Defined.

(** ** [set_time] and [now] together *)

Lemma position_lookup (t : list Py.val) (i n : nat) :
  (n ≤ length t)%nat → (i < n)%nat → t !! i = Some (position t i).
Proof.
  intros Hlen Hi. unfold position.
  destruct (lookup_lt_is_Some_2 t i ltac:(lia)) as [x ->]. reflexivity.
Qed.

Lemma decode_hour_byte bus h :
  0 ≤ h < 24 → decode_hour (mode12 bus) (hour_byte bus h) = h.
Proof.
  intros Hh. unfold decode_hour, hour_byte. destruct (mode12 bus).
  - now apply hour12_read_back.
  - change 0x30 with (Z.shiftl (Z.ones 2) 4). apply unpack_bcd; lia.
Qed.

Lemma hour_byte_range bus h : 0 ≤ h < 24 → 0 ≤ hour_byte bus h < 256.
Proof.
  intros Hh. unfold hour_byte. destruct (mode12 bus).
  - now apply hour12_byte_range.
  - apply pack_bcd_range. lia.
Qed.

Lemma now_after_writes bus y mo d h mi s :
  1970 ≤ y ≤ 2119 → 1 ≤ mo ≤ 12 → 1 ≤ d ≤ 30 →
  0 ≤ h ≤ 23 → 0 ≤ mi ≤ 59 → 0 ≤ s ≤ 59 →
  eval RTC.now
    (replay [wr _REGISTER_YEAR (RTC.pack_bcd (y - 1970));
             wr _REGISTER_MONTH (RTC.pack_bcd mo);
             wr _REGISTER_DAY (RTC.pack_bcd d);
             rd _REGISTER_CONTROL_1;
             wr _REGISTER_HOUR (hour_byte bus h);
             wr _REGISTER_MINUTE (RTC.pack_bcd mi);
             wr _REGISTER_SECOND (RTC.pack_bcd s)] bus)
  = Ok [Py.Int y; Py.Int mo; Py.Int d; Py.Int h; Py.Int mi; Py.Int s;
        Py.Int 0; Py.Int 0].
Proof.
  intros Hy Hmo Hd Hh Hmi Hs.
  rewrite now_run. cbv zeta. rewrite mode12_replay.
  2:{ intros data Hin. unfold wr in Hin.
      repeat (apply elem_of_cons in Hin as [Hin|Hin]; [discriminate Hin|]).
      inversion Hin. }
  rewrite !peek_replay.
  cbn [last_write rd wr Z.eqb Pos.eqb andb _ADDRESS
       _REGISTER_CONTROL_1 _REGISTER_SECOND _REGISTER_MINUTE _REGISTER_HOUR
       _REGISTER_DAY _REGISTER_MONTH _REGISTER_YEAR].
  rewrite !unpack_byte_of
    by (first [apply hour_byte_range | apply pack_bcd_range]; lia).
  rewrite decode_hour_byte by lia.
  change 0xF0 with (Z.shiftl (Z.ones 4) 4).
  change 0x10 with (Z.shiftl (Z.ones 1) 4).
  change 0x30 with (Z.shiftl (Z.ones 2) 4).
  change 0x70 with (Z.shiftl (Z.ones 3) 4).
  rewrite (unpack_bcd 4 (y - 1970)), (unpack_bcd 1 mo), (unpack_bcd 2 d),
    (unpack_bcd 3 mi), (unpack_bcd 3 s) by lia.
  do 3 f_equal. lia.
Qed.

(** X12. [set_time] followed by [now] returns what was set: for a tuple
    of at least three items with valid field values, in either hour mode,
    [now()] gives the year, month, day, hour, minute and second as numbers
    (a month given by name comes back as its number, a missing hour,
    minute or second as 0), followed by two zeros. *)
Theorem set_time_now_round_trip
    (t : list Py.val) (bus : I2C) (y mo d h mi s : Z) :
  (3 ≤ length t)%nat →
  Py.as_int (position t 0) = Some y ∧ 1970 ≤ y ≤ 2119 →
  month_value (position t 1) mo →
  Py.as_int (position t 2) = Some d ∧ 1 ≤ d ≤ 30 →
  Py.as_int (position t 3) = Some h ∧ 0 ≤ h ≤ 23 →
  Py.as_int (position t 4) = Some mi ∧ 0 ≤ mi ≤ 59 →
  Py.as_int (position t 5) = Some s ∧ 0 ≤ s ≤ 59 →
  eval (RTC.set_time t;; RTC.now) bus
  = Ok [Py.Int y; Py.Int mo; Py.Int d; Py.Int h; Py.Int mi; Py.Int s;
        Py.Int 0; Py.Int 0].
Proof.
  intros Hlen Vy Vmo Vd Vh Vmi Vs.
  unfold eval, mbind, M_bind.
  rewrite (set_time_run t bus (position t 0) (position t 1) (position t 2)
             y mo d h mi s);
    try assumption; try (apply (position_lookup t _ 3); [exact Hlen | lia]).
  cbv beta iota.
  apply (now_after_writes bus y mo d h mi s);
    first [apply Vy | apply Vd | apply Vh | apply Vmi | apply Vs
          | now apply (month_value_range (position t 1))].
Qed.

Lemma set_time_now_round_trip_witness :
  eval (RTC.set_time [Py.Int 2024; Py.Str "FEB"; Py.Int 29; Py.Int 12];;
        RTC.now)
    (mkI2C {[ (_ADDRESS, _REGISTER_CONTROL_1) := x08 ]} [_ADDRESS] [])
  = Ok [Py.Int 2024; Py.Int 2; Py.Int 29; Py.Int 12; Py.Int 0; Py.Int 0;
        Py.Int 0; Py.Int 0].
Proof.
  apply (set_time_now_round_trip
           [Py.Int 2024; Py.Str "FEB"; Py.Int 29; Py.Int 12] _
           2024 2 29 12 0 0).
  - simpl. lia.
  - split; [reflexivity | lia].
  - exact (month_name 1 "FEB" eq_refl).
  - split; [reflexivity | lia].
  - split; [reflexivity | lia].
  - split; [reflexivity | lia].
  - split; [reflexivity | lia].
Defined.

(** X13. [init] with a datetime, on a bus where the device answers and
    with boolean flags, sets the clock: a following [now()] returns the
    datetime given, whatever the registers held before and whatever hour
    mode the chip was in. *)
Theorem init_with_datetime_then_now
    (t : list Py.val) (so vb : bool) (bus : I2C) (y mo d h mi s : Z) :
  _ADDRESS ∈ devices bus →
  (3 ≤ length t)%nat →
  Py.as_int (position t 0) = Some y ∧ 1970 ≤ y ≤ 2119 →
  month_value (position t 1) mo →
  Py.as_int (position t 2) = Some d ∧ 1 ≤ d ≤ 30 →
  Py.as_int (position t 3) = Some h ∧ 0 ≤ h ≤ 23 →
  Py.as_int (position t 4) = Some mi ∧ 0 ≤ mi ≤ 59 →
  Py.as_int (position t 5) = Some s ∧ 0 ≤ s ≤ 59 →
  eval (RTC.init (Some t) (Py.Bool so) (Py.Bool vb);; RTC.now) bus
  = Ok [Py.Int y; Py.Int mo; Py.Int d; Py.Int h; Py.Int mi; Py.Int s;
        Py.Int 0; Py.Int 0].
Proof.
  intros Hdev Hlen Vy Vmo Vd Vh Vmi Vs.
  unfold eval, mbind, M_bind.
  rewrite (init_run (Some t) so vb bus Hdev).
  rewrite (set_time_run t _ (position t 0) (position t 1) (position t 2)
             y mo d h mi s);
    try assumption; try (apply (position_lookup t _ 3); [exact Hlen | lia]).
  cbv beta iota.
  apply (now_after_writes _ y mo d h mi s);
    first [apply Vy | apply Vd | apply Vh | apply Vmi | apply Vs
          | now apply (month_value_range (position t 1))].
Qed.

Lemma init_with_datetime_then_now_witness :
  eval (RTC.init (Some [Py.Int 2015; Py.Int 10; Py.Int 21; Py.Int 16;
                        Py.Int 29; Py.Int 0; Py.Int 0; Py.Int 0])
          (Py.Bool false) (Py.Bool false);;
        RTC.now)
    (mkI2C {[ (_ADDRESS, _REGISTER_CONTROL_1) := x08 ]} [_ADDRESS] [])
  = Ok [Py.Int 2015; Py.Int 10; Py.Int 21; Py.Int 16; Py.Int 29; Py.Int 0;
        Py.Int 0; Py.Int 0].
Proof.
  apply (init_with_datetime_then_now
           [Py.Int 2015; Py.Int 10; Py.Int 21; Py.Int 16;
            Py.Int 29; Py.Int 0; Py.Int 0; Py.Int 0]
           false false _ 2015 10 21 16 29 0).
  - cbn [devices]. apply list_elem_of_singleton. reflexivity.
  - simpl. lia.
  - split; [reflexivity | lia].
  - apply month_number; [reflexivity | lia].
  - split; [reflexivity | lia].
  - split; [reflexivity | lia].
  - split; [reflexivity | lia].
  - split; [reflexivity | lia].
Defined.

(** X14. [init] is not all-or-nothing.  With the device present and a
    [switch_over] flag that is no boolean, it raises the ValueError of
    [battery_switch_over] only after control register 1 has been
    rewritten: the clock is left in 24-hour mode, while control register 3
    and the time registers keep their values (a datetime given is not
    written). *)
Theorem init_rejects_flag_after_mode_write
    (datetime : option (list Py.val)) (switch_over vbat : Py.val)
    (bus : I2C) :
  _ADDRESS ∈ devices bus →
  (∀ b, switch_over ≠ Py.Bool b) →
  let bus' := exec (RTC.init datetime switch_over vbat) bus in
  eval (RTC.init datetime switch_over vbat) bus
  = Raise (Py.ValueError "battery_switch_over only takes boolean argument")
  ∧ log bus'
    = log bus ++ [OpScan; rd _REGISTER_CONTROL_1;
                  wr _REGISTER_CONTROL_1
                    (enable_24_byte (peek _REGISTER_CONTROL_1 bus));
                  rd _REGISTER_CONTROL_3]
  ∧ mode12 bus' = false
  ∧ (∀ reg, reg ≠ _REGISTER_CONTROL_1 → peek reg bus' = peek reg bus).
Proof.
  intros Hdev Hflag. cbv zeta.
  destruct (not_bool_flags switch_over Hflag) as [HT HF].
  assert (RTC.init datetime switch_over vbat bus
          = (Raise (Py.ValueError
                      "battery_switch_over only takes boolean argument"),
             replay [OpScan; rd _REGISTER_CONTROL_1;
                     wr _REGISTER_CONTROL_1
                       (enable_24_byte (peek _REGISTER_CONTROL_1 bus));
                     rd _REGISTER_CONTROL_3] bus)) as Hrun.
  { unfold RTC.init, mbind, M_bind, scan.
    rewrite bool_decide_eq_true_2 by exact Hdev. cbn [negb].
    change (record OpScan bus) with (replay [OpScan] bus).
    rewrite enable_24_mode_run.
    unfold RTC.battery_switch_over, mbind, M_bind.
    rewrite read_register_run, HT, HF.
    unfold raise. rewrite !replay_app. reflexivity. }
  unfold eval, exec, mode12. rewrite Hrun. cbn [fst snd].
  split; [reflexivity|]. split.
  { unfold replay. cbn [foldl apply_op record rd wr log].
    now rewrite <- !app_assoc. }
  split.
  - rewrite peek_replay.
    cbn [last_write rd wr Z.eqb Pos.eqb andb _ADDRESS _REGISTER_CONTROL_1].
    rewrite unpack_byte_of by apply enable_24_byte_range, peek_range.
    unfold enable_24_byte. mask_bits. reflexivity.
  - intros reg Hreg. rewrite peek_replay.
    cbn [last_write rd wr]. rewrite Z.eqb_refl. cbn [andb].
    destruct (Z.eqb_spec _REGISTER_CONTROL_1 reg) as [E|_]; [|reflexivity].
    now destruct Hreg.
Qed.

Lemma init_rejects_flag_after_mode_write_witness :
  let bus := mkI2C {[ (_ADDRESS, _REGISTER_CONTROL_1) := x08 ]}
               [_ADDRESS] [] in
  eval (RTC.init None (Py.Int 1) (Py.Bool false)) bus
  = Raise (Py.ValueError "battery_switch_over only takes boolean argument")
  ∧ mode12 bus = true
  ∧ mode12 (exec (RTC.init None (Py.Int 1) (Py.Bool false)) bus) = false.
Proof.
  cbv zeta.
  destruct (init_rejects_flag_after_mode_write None (Py.Int 1) (Py.Bool false)
              (mkI2C {[ (_ADDRESS, _REGISTER_CONTROL_1) := x08 ]}
                 [_ADDRESS] []))
    as (Hraise & _ & Hmode & _).
  - cbn [devices]. apply list_elem_of_singleton. reflexivity.
  - intros b. discriminate.
  - split; [exact Hraise|]. split; [vm_compute; reflexivity | exact Hmode].
Defined.

(** ** Tuples [set_time] does not take whole *)

Lemma bind_run {A B} (m : M A) (f : A → M B) bus :
  (m ≫= f) bus
  = match m bus with
    | (Ok a, bus') => f a bus'
    | (Raise e, bus') => (Raise e, bus')
    end.
Proof. reflexivity. Qed.

(** X15. [set_time] never succeeds on a tuple of fewer than three items:
    it raises, whatever the items are.  On the empty tuple the IndexError
    comes before any bus access. *)
Theorem set_time_short_tuple_raises (t : list Py.val) (bus : I2C) :
  (length t < 3)%nat →
  (∃ e, eval (RTC.set_time t) bus = Raise e)
  ∧ (t = [] →
     RTC.set_time t bus
     = (Raise (Py.IndexError "tuple index out of range"), bus)).
Proof.
  intros Hlen. split; [|intros ->; reflexivity].
  unfold eval, RTC.set_time.
  destruct t as [|a [|b [|c t]]]; [| | |simpl in Hlen; lia].
  - eexists. reflexivity.
  - rewrite bind_run.
    change (RTC.item [a] 0 ≫= RTC.set_year) with (RTC.set_year a).
    destruct (RTC.set_year a bus) as [[[]|e] bus1]; eexists; reflexivity.
  - rewrite bind_run.
    change (RTC.item [a; b] 0 ≫= RTC.set_year) with (RTC.set_year a).
    destruct (RTC.set_year a bus) as [[[]|e] bus1];
      [|eexists; reflexivity].
    rewrite bind_run.
    change (RTC.item [a; b] 1 ≫= RTC.set_month) with (RTC.set_month b).
    destruct (RTC.set_month b bus1) as [[[]|e] bus2]; eexists; reflexivity.
Qed.

Lemma set_time_short_tuple_raises_witness :
  ∃ e, eval (RTC.set_time [Py.Int 2015; Py.Int 10])
         (mkI2C ∅ [_ADDRESS] []) = Raise e.
Proof.
  apply (set_time_short_tuple_raises [Py.Int 2015; Py.Int 10]).
  simpl. lia.
Defined.

(** X16. What [set_time] wrote before it fails stays written.  On a
    two-item tuple with a valid year and month, the year and month
    registers are written before the IndexError for the missing day. *)
Theorem set_time_two_items_written
    (year month : Py.val) (y mo : Z) (bus : I2C) :
  Py.as_int year = Some y ∧ 1970 ≤ y ≤ 2119 →
  month_value month mo →
  RTC.set_time [year; month] bus
  = (Raise (Py.IndexError "tuple index out of range"),
     replay [wr _REGISTER_YEAR (RTC.pack_bcd (y - 1970));
             wr _REGISTER_MONTH (RTC.pack_bcd mo)] bus).
Proof.
  intros [Ey Ry] Vmo. unfold RTC.set_time.
  change (RTC.item [year; month] 0) with (mret year : M Py.val).
  change (RTC.item [year; month] 1) with (mret month : M Py.val).
  unfold mbind, M_bind, mret, M_ret.
  rewrite (set_year_run _ _ _ Ey) by lia.
  rewrite (set_month_run _ _ _ Vmo).
  now rewrite replay_app.
Qed.

Lemma set_time_two_items_written_witness :
  RTC.set_time [Py.Int 2015; Py.Str "OCT"] (mkI2C ∅ [_ADDRESS] [])
  = (Raise (Py.IndexError "tuple index out of range"),
     replay [wr _REGISTER_YEAR (RTC.pack_bcd (2015 - 1970));
             wr _REGISTER_MONTH (RTC.pack_bcd 10)]
       (mkI2C ∅ [_ADDRESS] [])).
Proof.
  apply set_time_two_items_written.
  - split; [reflexivity | lia].
  - exact (month_name 9 "OCT" eq_refl).
Defined.

(** X17. There is no rollback.  When the date items are valid and the
    hour at position 3 is not, [set_time] raises the ValueError of
    [set_hour] with the year, month and day registers already written
    and the hour, minute and second registers untouched. *)
Theorem set_time_invalid_hour_keeps_date
    (t : list Py.val) (hour : Py.val) (bus : I2C) (y mo d : Z) :
  Py.as_int (position t 0) = Some y ∧ 1970 ≤ y ≤ 2119 →
  month_value (position t 1) mo →
  Py.as_int (position t 2) = Some d ∧ 1 ≤ d ≤ 30 →
  t !! 3%nat = Some hour →
  invalid_field Hour hour →
  ∃ msg,
    RTC.set_time t bus
    = (Raise (Py.ValueError msg),
       replay [wr _REGISTER_YEAR (RTC.pack_bcd (y - 1970));
               wr _REGISTER_MONTH (RTC.pack_bcd mo);
               wr _REGISTER_DAY (RTC.pack_bcd d)] bus).
Proof.
  intros [Ey Ry] Vmo [Ed Rd] Hhour Hinv.
  pose proof (lookup_lt_Some _ _ _ Hhour) as Hlen.
  pose proof (item_run t 0 _ (position_lookup t 0 3 ltac:(lia) ltac:(lia)))
    as I0.
  pose proof (item_run t 1 _ (position_lookup t 1 3 ltac:(lia) ltac:(lia)))
    as I1.
  pose proof (item_run t 2 _ (position_lookup t 2 3 ltac:(lia) ltac:(lia)))
    as I2.
  pose proof (optional_item t 3 RTC.set_hour) as O3.
  change (Z.of_nat 0) with 0 in I0. change (Z.of_nat 1) with 1 in I1.
  change (Z.of_nat 2) with 2 in I2. change (Z.of_nat 3) with 3 in O3.
  rewrite Hhour in O3.
  change (default (Py.Int 0) (Some hour)) with hour in O3.
  unfold RTC.set_time. rewrite I0, I1, I2, O3.
  unfold mbind, M_bind, mret, M_ret.
  rewrite (set_year_run _ _ _ Ey) by lia.
  rewrite (set_month_run _ _ _ Vmo).
  rewrite (set_day_run _ _ _ Ed) by lia.
  rewrite !replay_app. cbn [app].
  match goal with
  | |- context [RTC.set_hour hour ?b] =>
      destruct (setter_rejects Hour hour b Hinv) as [msg Hmsg]
  end.
  cbn [setter] in Hmsg. rewrite Hmsg. exists msg. reflexivity.
Qed.

Lemma set_time_invalid_hour_keeps_date_witness :
  ∃ msg,
    RTC.set_time [Py.Int 2015; Py.Int 10; Py.Int 21; Py.Int 24]
      (mkI2C ∅ [_ADDRESS] [])
    = (Raise (Py.ValueError msg),
       replay [wr _REGISTER_YEAR (RTC.pack_bcd (2015 - 1970));
               wr _REGISTER_MONTH (RTC.pack_bcd 10);
               wr _REGISTER_DAY (RTC.pack_bcd 21)]
         (mkI2C ∅ [_ADDRESS] [])).
Proof.
  apply (set_time_invalid_hour_keeps_date
           [Py.Int 2015; Py.Int 10; Py.Int 21; Py.Int 24] (Py.Int 24)).
  - split; [reflexivity | lia].
  - apply month_number; [reflexivity | lia].
  - split; [reflexivity | lia].
  - reflexivity.
  - intros z [= <-]. lia.
Defined.

Lemma item_app (t rest : list Py.val) (i : nat) :
  (i < length t)%nat →
  RTC.item (t ++ rest) (Z.of_nat i) = RTC.item t (Z.of_nat i).
Proof.
  intros Hi.
  destruct (lookup_lt_is_Some_2 t i Hi) as [x Hx].
  rewrite (item_run t i x Hx).
  apply item_run. now rewrite lookup_app_l.
Qed.

(** X18. Items beyond position 5 are ignored: on a tuple of at least six
    items, [set_time] does the same whatever follows them (the
    microsecond and tzinfo slots of the docstring, or anything else). *)
Theorem set_time_ignores_trailing_items (t rest : list Py.val) (bus : I2C) :
  (6 ≤ length t)%nat →
  RTC.set_time (t ++ rest) bus = RTC.set_time t bus.
Proof.
  intros Hlen. unfold RTC.set_time.
  pose proof (item_app t rest 0 ltac:(lia)) as I0.
  pose proof (item_app t rest 1 ltac:(lia)) as I1.
  pose proof (item_app t rest 2 ltac:(lia)) as I2.
  pose proof (item_app t rest 3 ltac:(lia)) as I3.
  pose proof (item_app t rest 4 ltac:(lia)) as I4.
  pose proof (item_app t rest 5 ltac:(lia)) as I5.
  change (Z.of_nat 0) with 0 in I0. change (Z.of_nat 1) with 1 in I1.
  change (Z.of_nat 2) with 2 in I2. change (Z.of_nat 3) with 3 in I3.
  change (Z.of_nat 4) with 4 in I4. change (Z.of_nat 5) with 5 in I5.
  rewrite I0, I1, I2, I3, I4, I5.
  assert (∀ n, n < 6 → (n <? Z.of_nat (length (t ++ rest))) = true) as Hl
    by (intros n Hn; rewrite length_app; apply Z.ltb_lt; lia).
  assert (∀ n, n < 6 → (n <? Z.of_nat (length t)) = true) as Hr
    by (intros n Hn; apply Z.ltb_lt; lia).
  rewrite !Hl, !Hr by lia. reflexivity.
Qed.

Lemma set_time_ignores_trailing_items_witness :
  RTC.set_time ([Py.Int 2015; Py.Int 10; Py.Int 21; Py.Int 16; Py.Int 29;
                 Py.Int 0] ++ [Py.Int 999999; Py.None_])
    (mkI2C ∅ [_ADDRESS] [])
  = RTC.set_time [Py.Int 2015; Py.Int 10; Py.Int 21; Py.Int 16; Py.Int 29;
                  Py.Int 0]
      (mkI2C ∅ [_ADDRESS] []).
Proof.
  apply set_time_ignores_trailing_items. simpl. lia.
Defined.

(** ** Names and the 12-hour mode *)

(** X19. A weekday set by number or by name reads back as the name at
    that position of [WEEKDAY_STR] with [as_str=True], and as the
    position (0 for "SUN") without. *)
Theorem weekday_name_round_trip
    (v : Py.val) (i : nat) (name : string) (bus : I2C) :
  weekday_value v (Z.of_nat i) →
  WEEKDAY_STR !! i = Some name →
  eval (RTC.set_weekday v;; RTC.get_weekday (Py.Bool true)) bus
  = Ok (Py.Str name)
  ∧ eval (RTC.set_weekday v;; RTC.get_weekday (Py.Bool false)) bus
    = Ok (Py.Int (Z.of_nat i)).
Proof.
  intros Hv Hname.
  pose proof (lookup_lt_Some _ _ _ Hname) as Hi. simpl in Hi.
  unfold eval, mbind, M_bind.
  rewrite (set_weekday_run v _ bus Hv).
  unfold RTC.get_weekday, mbind, M_bind.
  rewrite read_register_run, peek_wr_eq by lia.
  assert (Z.land (Z.of_nat i) 0x07 = Z.of_nat i) as ->.
  { change 0x07 with (Z.ones 3). rewrite Z.land_ones by lia.
    apply Z.mod_small. simpl. lia. }
  cbn [Py.is_True]. rewrite (getitem_lookup _ _ _ Hname).
  split; reflexivity.
Qed.

Lemma weekday_name_round_trip_witness :
  eval (RTC.set_weekday (Py.Str "WED");; RTC.get_weekday (Py.Bool true))
    (mkI2C ∅ [_ADDRESS] [])
  = Ok (Py.Str "WED")
  ∧ eval (RTC.set_weekday (Py.Str "WED");; RTC.get_weekday (Py.Bool false))
      (mkI2C ∅ [_ADDRESS] [])
    = Ok (Py.Int 3).
Proof.
  apply (weekday_name_round_trip (Py.Str "WED") 3 "WED").
  - exact (weekday_name 3 "WED" eq_refl).
  - reflexivity.
Defined.

(** X20. A month set by number or by name reads back as the name at that
    position of [MONTH_STR] with [as_str=True], and as the number (1 for
    "JAN") without. *)
Theorem month_name_round_trip
    (v : Py.val) (i : nat) (name : string) (bus : I2C) :
  month_value v (Z.of_nat i + 1) →
  MONTH_STR !! i = Some name →
  eval (RTC.set_month v;; RTC.get_month (Py.Bool true)) bus
  = Ok (Py.Str name)
  ∧ eval (RTC.set_month v;; RTC.get_month (Py.Bool false)) bus
    = Ok (Py.Int (Z.of_nat i + 1)).
Proof.
  intros Hv Hname.
  pose proof (lookup_lt_Some _ _ _ Hname) as Hi. simpl in Hi.
  unfold eval, mbind, M_bind.
  rewrite (set_month_run v _ bus Hv).
  unfold RTC.get_month, mbind, M_bind.
  rewrite read_register_run.
  change 0x10 with (Z.shiftl (Z.ones 1) 4).
  rewrite (bcd_read_back _REGISTER_MONTH 1 (Z.of_nat i + 1) bus) by lia.
  cbn [Py.is_True].
  replace (Z.of_nat i + 1 - 1) with (Z.of_nat i) by lia.
  rewrite (getitem_lookup _ _ _ Hname).
  split; reflexivity.
Qed.

Lemma month_name_round_trip_witness :
  eval (RTC.set_month (Py.Int 12);; RTC.get_month (Py.Bool true))
    (mkI2C ∅ [_ADDRESS] [])
  = Ok (Py.Str "DEC")
  ∧ eval (RTC.set_month (Py.Int 12);; RTC.get_month (Py.Bool false))
      (mkI2C ∅ [_ADDRESS] [])
    = Ok (Py.Int (Z.of_nat 11 + 1)).
Proof.
  apply (month_name_round_trip (Py.Int 12) 11 "DEC").
  - apply month_number; [reflexivity | lia].
  - reflexivity.
Defined.

(** X21. The hour round trip does not depend on the mode bit: with the
    chip in 12-hour mode too, [set_hour] followed by [get_hour] returns
    the hour set, for every hour from 0 to 23 (no two of them share a
    12-hour byte). *)
Theorem hour_round_trip_any_mode (h : Z) (bus : I2C) :
  0 ≤ h ≤ 23 →
  eval (RTC.set_hour (Py.Int h);; RTC.get_hour) bus = Ok h.
Proof.
  intros Hh. apply get_hour_after_set_hour; [reflexivity | lia].
Qed.

Lemma hour_round_trip_any_mode_witness :
  let bus := mkI2C {[ (_ADDRESS, _REGISTER_CONTROL_1) := x08 ]}
               [_ADDRESS] [] in
  mode12 bus = true
  ∧ eval (RTC.set_hour (Py.Int 12);; RTC.get_hour) bus = Ok 12
  ∧ eval (RTC.set_hour (Py.Int 0);; RTC.get_hour) bus = Ok 0.
Proof.
  cbv zeta. split; [vm_compute; reflexivity|].
  split; apply hour_round_trip_any_mode; lia.
Defined.

Lemma getitem_beyond {A} (l : list A) (i : Z) :
  Z.of_nat (length l) ≤ i → Py.getitem l i = None.
Proof.
  intros Hi. unfold Py.getitem.
  destruct (Z.ltb_spec i (Z.of_nat (length l))); [lia|].
  rewrite andb_false_r.
  destruct (Z.ltb_spec i 0); [lia|]. now rewrite andb_false_r.
Qed.

Lemma getitem_nonneg {A} (l : list A) (i : Z) x :
  0 ≤ i → Py.getitem l i = Some x → l !! Z.to_nat i = Some x.
Proof.
  intros Hi. unfold Py.getitem.
  destruct ((0 <=? i) && (i <? Z.of_nat (length l))); [trivial|].
  destruct (Z.ltb_spec i 0); [lia|].
  rewrite andb_false_r. discriminate.
Qed.

(** X22. [get_month(as_str=True)] by the month the register decodes to:
    the name of the month for 1 to 12, and an IndexError for 13 and above,
    which the register can hold since the getter does not validate it
    (the decoded month is at most 25). *)
Theorem get_month_name_by_month (bus : I2C) (m : Z) :
  eval (RTC.get_month (Py.Bool false)) bus = Ok (Py.Int m) →
  0 ≤ m ≤ 25
  ∧ (1 ≤ m ≤ 12 →
     ∃ name, MONTH_STR !! Z.to_nat (m - 1) = Some name
             ∧ eval (RTC.get_month (Py.Bool true)) bus = Ok (Py.Str name))
  ∧ (13 ≤ m →
     eval (RTC.get_month (Py.Bool true)) bus
     = Raise (Py.IndexError "list index out of range")).
Proof.
  unfold eval, RTC.get_month, mbind, M_bind.
  rewrite read_register_run. cbn [Py.is_True]. unfold mret, M_ret. cbn [fst].
  intros [= <-]. split; [|split].
  - generalize (peek_range _REGISTER_MONTH bus).
    generalize (peek _REGISTER_MONTH bus).
    apply (forall_range _ 0 256). vm_compute. reflexivity.
  - intros Hm.
    match goal with
    | |- context [Py.getitem MONTH_STR ?i] =>
        destruct (getitem_elem_of MONTH_STR i) as (name & Hname & _);
        [simpl; lia|]; exists name; rewrite Hname;
        split; [|reflexivity];
        apply getitem_nonneg; [lia | exact Hname]
    end.
  - intros Hm. rewrite getitem_beyond by (simpl; lia). reflexivity.
Qed.

Lemma get_month_name_by_month_witness :
  let bus := mkI2C {[ (_ADDRESS, _REGISTER_MONTH) := x13 ]} [_ADDRESS] [] in
  eval (RTC.get_month (Py.Bool false)) bus = Ok (Py.Int 13)
  ∧ eval (RTC.get_month (Py.Bool true)) bus
    = Raise (Py.IndexError "list index out of range").
Proof.
  cbv zeta.
  assert (H13 : eval (RTC.get_month (Py.Bool false))
                  (mkI2C {[ (_ADDRESS, _REGISTER_MONTH) := x13 ]}
                     [_ADDRESS] [])
                = Ok (Py.Int 13)) by (vm_compute; reflexivity).
  split; [exact H13|].
  destruct (get_month_name_by_month _ 13 H13) as (_ & _ & Hraise).
  apply Hraise. lia.
Defined.
